(** * fbx2tiles: B3DM packaging, geodetic placement and tileset assembly

    A shallow embedding of the pure core of [fbx2tiles.py]:
    [find_binary_data], [create_b3dm], [wgs84_to_ecef],
    [get_transform_matrix], [calculate_bounding_volume] and
    [create_tileset_json], followed by the properties established
    about them.

    Conventions of the embedding.
    - A Python [str] is a Rocq [string]; every character stands for the
      code point of the same number (0..255).
    - A Python [bytes] object is a [list byte].
    - A Python [int] is a [Z]; [len] results are injected with [Z.of_nat].
    - A Python [float] inside a parsed JSON document is carried by the text
      [float.__repr__] prints for it (what [json.dumps] emits).
    - The floats of the geodetic transform are idealised as real numbers;
      the geometric errors [100 / 2 ** k] are rationals (they are exact
      binary floats as long as k <= 1076).
    - A raised Python exception is the [Raise] branch of [result]. *)

From Stdlib Require Import ZArith QArith Reals List String Ascii Bool Lia Lra.
From Stdlib Require Import Strings.Byte DecimalString DecimalZ.
Import ListNotations.

Set Implicit Arguments.
Open Scope Z_scope.
Open Scope string_scope.

(* ================================================================== *)
(** ** Exceptions and the error monad *)

Inductive exn : Type :=
| TypeError
| KeyError
| IndexError
| AttributeError
| StructError.

Inductive result (A : Type) : Type :=
| Ok (a : A)
| Raise (e : exn).

Arguments Ok {A} a.
Arguments Raise {A} e.

Definition bind {A B : Type} (m : result A) (k : A -> result B) : result B :=
  match m with
  | Ok a => k a
  | Raise e => Raise e
  end.

Notation "x <- m ;; k" := (bind m (fun x => k))
  (at level 61, m at next level, right associativity).

(** Python's short-circuit [a and b] on truth values: [b] is looked at
    (and may raise) only when [a] is true. *)
Definition py_and (a b : result bool) : result bool :=
  x <- a ;; if x then b else Ok false.

(* ================================================================== *)
(** ** Strings and bytes *)

Definition dquote : ascii := "034"%char.
Definition backslash : ascii := "092"%char.

Definition byte_of_N (n : N) : byte :=
  match Byte.of_N n with
  | Some b => b
  | None => x00
  end.

Definition byte_of_Z (z : Z) : byte := byte_of_N (Z.to_N z).

(** [s.encode('utf-8')] for code points below 256: one byte below 128,
    two bytes otherwise. *)
Definition utf8_char (c : ascii) : list byte :=
  let n := N_of_ascii c in
  if (n <? 128)%N then [byte_of_ascii c]
  else [byte_of_N (192 + n / 64); byte_of_N (128 + n mod 64)].

Fixpoint encode_utf8 (s : string) : list byte :=
  match s with
  | EmptyString => []
  | String c s' => (utf8_char c ++ encode_utf8 s')%list
  end.

(** [str(n)] for a Python int. *)
Definition str_of_int (n : Z) : string := NilZero.string_of_int (Z.to_int n).

(** [' ' * n] *)
Fixpoint spaces (n : nat) : string :=
  match n with
  | O => EmptyString
  | S n' => String " " (spaces n')
  end.

(** [p in s] for two strings. *)
Fixpoint is_substring (p s : string) : bool :=
  String.prefix p s ||
  match s with
  | EmptyString => false
  | String _ s' => is_substring p s'
  end.

(* ================================================================== *)
(** ** Parsed JSON documents (the values [json.load] returns) *)

Unset Elimination Schemes.

Inductive json : Type :=
| JNull
| JBool (b : bool)
| JInt (n : Z)
| JFloat (repr : string)
| JStr (s : string)
| JArr (items : list json)
| JObj (members : list (string * json)).

Set Elimination Schemes.

(** A [dict] keeps its keys in insertion order; keys are unique. *)
Fixpoint dict_get (k : string) (d : list (string * json)) : option json :=
  match d with
  | [] => None
  | (k', v) :: d' => if String.eqb k k' then Some v else dict_get k d'
  end.

(** [d[k] = v]: an existing key keeps its place, a new key goes last. *)
Fixpoint dict_set (k : string) (v : json) (d : list (string * json))
  : list (string * json) :=
  match d with
  | [] => [(k, v)]
  | (k', v') :: d' =>
      if String.eqb k k' then (k', v) :: d' else (k', v') :: dict_set k v d'
  end.

Definition is_str (k : string) (v : json) : bool :=
  match v with
  | JStr s => String.eqb k s
  | _ => false
  end.

(** [k in v] for a string [k]. *)
Definition py_contains (k : string) (v : json) : result bool :=
  match v with
  | JObj d => Ok (match dict_get k d with Some _ => true | None => false end)
  | JArr l => Ok (existsb (is_str k) l)
  | JStr s => Ok (is_substring k s)
  | _ => Raise TypeError
  end.

(** [v[k]] for a string [k]. *)
Definition py_getitem (v : json) (k : string) : result json :=
  match v with
  | JObj d => match dict_get k d with
              | Some x => Ok x
              | None => Raise KeyError
              end
  | _ => Raise TypeError
  end.

(** [v[0]] *)
Definition py_getitem0 (v : json) : result json :=
  match v with
  | JArr (x :: _) => Ok x
  | JArr [] => Raise IndexError
  | JStr (String c _) => Ok (JStr (String c EmptyString))
  | JStr EmptyString => Raise IndexError
  | JObj _ => Raise KeyError
  | _ => Raise TypeError
  end.

(** [len(v)] *)
Definition py_len (v : json) : result Z :=
  match v with
  | JObj d => Ok (Z.of_nat (List.length d))
  | JArr l => Ok (Z.of_nat (List.length l))
  | JStr s => Ok (Z.of_nat (String.length s))
  | _ => Raise TypeError
  end.

(** [v[k] = x] for a string [k]; the updated container is returned. *)
Definition py_setitem (v : json) (k : string) (x : json) : result json :=
  match v with
  | JObj d => Ok (JObj (dict_set k x d))
  | _ => Raise TypeError
  end.

(** [v.startswith(p)] *)
Definition py_startswith (v : json) (p : string) : result bool :=
  match v with
  | JStr s => Ok (String.prefix p s)
  | _ => Raise AttributeError
  end.

(* ------------------------------------------------------------------ *)
(** *** [json.dumps] with its default settings
    ([ensure_ascii=True], separators [", "] and [": "]). *)

Definition hex_digit (n : N) : ascii :=
  nth (N.to_nat n) (list_ascii_of_string "0123456789abcdef") "0"%char.

Definition esc (c : ascii) : string := String backslash (String c EmptyString).

Definition escape_char (c : ascii) : string :=
  let n := N_of_ascii c in
  if (n =? 34)%N then esc dquote
  else if (n =? 92)%N then esc backslash
  else if (n =? 10)%N then esc "n"
  else if (n =? 13)%N then esc "r"
  else if (n =? 9)%N then esc "t"
  else if (n =? 8)%N then esc "b"
  else if (n =? 12)%N then esc "f"
  else if ((n <? 32) || (126 <? n))%N
       then String backslash
              ("u00" ++ String (hex_digit (n / 16))
                          (String (hex_digit (n mod 16)) EmptyString))
  else String c EmptyString.

Fixpoint escape_string (s : string) : string :=
  match s with
  | EmptyString => EmptyString
  | String c s' => escape_char c ++ escape_string s'
  end.

Definition quoted (s : string) : string :=
  String dquote (escape_string s ++ String dquote EmptyString).

Fixpoint dumps (v : json) : string :=
  match v with
  | JNull => "null"
  | JBool true => "true"
  | JBool false => "false"
  | JInt n => str_of_int n
  | JFloat r => r
  | JStr s => quoted s
  | JArr l =>
      "[" ++
      (fix items (l : list json) : string :=
         match l with
         | [] => EmptyString
         | x :: r =>
             match r with
             | [] => dumps x
             | _ :: _ => dumps x ++ ", " ++ items r
             end
         end) l ++ "]"
  | JObj d =>
      "{" ++
      (fix pairs (d : list (string * json)) : string :=
         match d with
         | [] => EmptyString
         | (k, x) :: r =>
             match r with
             | [] => quoted k ++ ": " ++ dumps x
             | _ :: _ => quoted k ++ ": " ++ dumps x ++ ", " ++ pairs r
             end
         end) d ++ "}"
  end.

(* ================================================================== *)
(** ** [struct.pack] with little-endian unsigned 32-bit fields *)

(** [struct.pack('<I', n)]: four bytes, least significant first;
    [struct.error] outside [0, 2^32). *)
Definition pack_I (n : Z) : result (list byte) :=
  if ((0 <=? n) && (n <? 2 ^ 32))%Z then
    Ok [ byte_of_Z (Z.land n 255);
         byte_of_Z (Z.land (Z.shiftr n 8) 255);
         byte_of_Z (Z.land (Z.shiftr n 16) 255);
         byte_of_Z (Z.land (Z.shiftr n 24) 255) ]
  else Raise StructError.

(** [struct.pack('<' + 'I' * k, *ns)] *)
Fixpoint pack_Is (ns : list Z) : result (list byte) :=
  match ns with
  | [] => Ok []
  | n :: ns' => x <- pack_I n ;; xs <- pack_Is ns' ;; Ok (x ++ xs)%list
  end.

(** [struct.pack('<4s' + 'I' * k, magic, *ns)] for a 4-byte [magic]. *)
Definition pack_4s_Is (magic : list byte) (ns : list Z) : result (list byte) :=
  xs <- pack_Is ns ;; Ok (magic ++ xs)%list.

(** The reader's side: the unsigned little-endian value of a byte string. *)
Fixpoint le_value (bs : list byte) : Z :=
  match bs with
  | [] => 0
  | b :: bs' => Z.of_N (Byte.to_N b) + 256 * le_value bs'
  end.

(** [bs[i:j]] *)
Definition slice (i j : nat) (bs : list byte) : list byte :=
  firstn (j - i) (skipn i bs).

(* ================================================================== *)
(** ** The binary container packager *)

(** What [find_binary_data] and [create_b3dm] see of the file system for
    one [gltf_path]: the parsed glTF document ([json.load] of the path),
    the content of the sibling file [bin_path] when it exists, and the
    contents of the files of the directory whose names end in [.bin], in
    [os.listdir] order. *)
Record gltf_files : Type := {
  document : json;
  sibling_bin : option (list byte);
  listed_bins : list (list byte)
}.

(** [find_binary_data]: returns the pair [(binary_data, is_embedded)]. *)
Definition find_binary_data (fs : gltf_files)
  : result (option (list byte) * bool) :=
  match sibling_bin fs with
  | Some data => Ok (Some data, false)
  | None =>
      match listed_bins fs with
      | data :: _ => Ok (Some data, false)
      | [] =>
          let gltf_json := document fs in
          declared <-
            py_and (py_contains "buffers" gltf_json)
                   (bufs <- py_getitem gltf_json "buffers" ;;
                    n <- py_len bufs ;;
                    Ok (0 <? n)%Z) ;;
          if declared : bool then
            bufs <- py_getitem gltf_json "buffers" ;;
            buffer <- py_getitem0 bufs ;;
            inline <-
              py_and (py_contains "uri" buffer)
                     (u <- py_getitem buffer "uri" ;;
                      py_startswith u "data:") ;;
            if inline : bool then Ok (None, true) else Ok (None, false)
          else Ok (None, false)
      end
  end.

(** The test [binary_data and not is_embedded]: the bytes of the
    external buffer when it holds; [None] and [b''] are both falsy. *)
Definition external_buffer (binary_data : option (list byte))
           (is_embedded : bool) : option (list byte) :=
  match binary_data with
  | Some (b :: data) => if is_embedded then None else Some (b :: data)
  | _ => None
  end.

Definition buffer_uri (lod_level : Z) : string :=
  "buffer_lod" ++ str_of_int lod_level ++ ".bin".

(** [gltf_json['buffers'][0]['uri'] = uri], as a functional update of
    the document: the first buffer object is updated in place and the
    document that holds it is returned. *)
Definition set_first_buffer_uri (gltf_json : json) (uri : string)
  : result json :=
  bufs <- py_getitem gltf_json "buffers" ;;
  buffer <- py_getitem0 bufs ;;
  buffer' <- py_setitem buffer "uri" (JStr uri) ;;
  match gltf_json, bufs with
  | JObj d, JArr (_ :: rest) =>
      Ok (JObj (dict_set "buffers" (JArr (buffer' :: rest)) d))
  | _, _ => Ok gltf_json
  end.

(** The document that gets serialised: the URI of the first buffer is
    rewritten when the binary data is external. *)
Definition rewrite_document (gltf_json : json)
           (binary_data : option (list byte)) (is_embedded : bool)
           (lod_level : Z) : result json :=
  rewrite <-
    py_and (Ok (match external_buffer binary_data is_embedded with
                | Some _ => true
                | None => false
                end))
           (py_and (py_contains "buffers" gltf_json)
                   (bufs <- py_getitem gltf_json "buffers" ;;
                    n <- py_len bufs ;;
                    Ok (0 <? n)%Z)) ;;
  if rewrite : bool
  then set_first_buffer_uri gltf_json (buffer_uri lod_level)
  else Ok gltf_json.

(** [s + ' ' * ((4 - len(s) % 4) % 4)] *)
Definition pad4 (s : string) : string :=
  s ++ spaces (Z.to_nat ((4 - Z.of_nat (String.length s) mod 4) mod 4)).

Definition feature_table_json : json := JObj [("BATCH_LENGTH", JInt 0)].
Definition feature_table_json_bytes : list byte :=
  encode_utf8 (pad4 (dumps feature_table_json)).
Definition feature_table_binary : list byte := [].

Definition batch_table_json : json := JObj [].
Definition batch_table_json_bytes : list byte :=
  encode_utf8 (pad4 (dumps batch_table_json)).
Definition batch_table_binary : list byte := [].

Definition len (bs : list byte) : Z := Z.of_nat (List.length bs).

Definition glTF_magic : list byte := list_byte_of_string "glTF".
Definition b3dm_magic : list byte := list_byte_of_string "b3dm".
Definition JSON_chunk : Z := 0x4E4F534A.
Definition BIN_chunk : Z := 0x004E4942.

(** The GLB container around [gltf_bytes] and the external buffer. *)
Definition glb_container (gltf_bytes data : list byte) : result (list byte) :=
  glb_header <-
    pack_4s_Is glTF_magic [2; len gltf_bytes + len data + 28]%Z ;;
  json_chunk_header <- pack_Is [len gltf_bytes; JSON_chunk] ;;
  bin_chunk_header <- pack_Is [len data; BIN_chunk] ;;
  Ok (glb_header ++ json_chunk_header ++ gltf_bytes
        ++ bin_chunk_header ++ data)%list.

(** The payload [glb_data]. *)
Definition make_glb_data (gltf_bytes : list byte)
           (binary_data : option (list byte)) (is_embedded : bool)
  : result (list byte) :=
  match external_buffer binary_data is_embedded with
  | Some data => glb_container gltf_bytes data
  | None => Ok gltf_bytes
  end.

Definition make_b3dm_header (glb_data : list byte) : result (list byte) :=
  let feature_table_json_byte_length := len feature_table_json_bytes in
  let feature_table_binary_byte_length := len feature_table_binary in
  let batch_table_json_byte_length := len batch_table_json_bytes in
  let batch_table_binary_byte_length := len batch_table_binary in
  pack_4s_Is b3dm_magic
    [ 1;
      28 + feature_table_json_byte_length + feature_table_binary_byte_length
        + batch_table_json_byte_length + batch_table_binary_byte_length
        + len glb_data;
      feature_table_json_byte_length;
      feature_table_binary_byte_length;
      batch_table_json_byte_length;
      batch_table_binary_byte_length ]%Z.

(** [create_b3dm]: returns [(b3dm_data, binary_data, is_embedded)]. *)
Definition create_b3dm (fs : gltf_files) (lod_level : Z)
  : result (list byte * option (list byte) * bool) :=
  found <- find_binary_data fs ;;
  let '(binary_data, is_embedded) := found in
  gltf_json <- rewrite_document (document fs) binary_data is_embedded
                                lod_level ;;
  let gltf_bytes := encode_utf8 (dumps gltf_json) in
  glb_data <- make_glb_data gltf_bytes binary_data is_embedded ;;
  b3dm_header <- make_b3dm_header glb_data ;;
  Ok ((b3dm_header ++ feature_table_json_bytes ++ feature_table_binary
         ++ batch_table_json_bytes ++ batch_table_binary ++ glb_data)%list,
      binary_data, is_embedded).

(** One entry of the list [create_lod_models] builds. *)
Record lod_model : Type := {
  level : Z;
  b3dm_data : list byte;
  binary_data : option (list byte);
  is_embedded : bool
}.

(** The loop of [create_lod_models] over [range(lod_levels)], from
    level [i] on: the same document is packaged for every level, and an
    empty [b3dm_data] is skipped. *)
Fixpoint lod_models_from (fs : gltf_files) (i : Z) (count : nat)
  : result (list lod_model) :=
  match count with
  | O => Ok []
  | S count' =>
      r <- create_b3dm fs i ;;
      let '(b3dm, bin, emb) := r in
      rest <- lod_models_from fs (i + 1) count' ;;
      match b3dm with
      | [] => Ok rest
      | _ :: _ => Ok ({| level := i; b3dm_data := b3dm;
                         binary_data := bin; is_embedded := emb |} :: rest)
      end
  end.

Definition create_lod_models (fs : gltf_files) (lod_levels : Z)
  : result (list lod_model) :=
  lod_models_from fs 0 (Z.to_nat lod_levels).

(* ================================================================== *)
(** ** The geodetic transform *)

(** The fields of the converter object the placement reads. *)
Record FBX2Tiles : Type := {
  longitude : R;
  latitude : R;
  height : R
}.

(** [math.radians] *)
Definition radians (deg : R) : R := (deg * (PI / 180))%R.

(** [wgs84_to_ecef] *)
Definition wgs84_to_ecef (lon lat h : R) : R * R * R :=
  let a := 6378137%R in
  let f := (1 / (298257223563 / 1000000000))%R in
  let e_squared := (2 * f - f * f)%R in
  let lon_rad := radians lon in
  let lat_rad := radians lat in
  let N := (a / sqrt (1 - e_squared * sin lat_rad * sin lat_rad))%R in
  let x := ((N + h) * cos lat_rad * cos lon_rad)%R in
  let y := ((N + h) * cos lat_rad * sin lon_rad)%R in
  let z := ((N * (1 - e_squared) + h) * sin lat_rad)%R in
  (x, y, z).

(** [get_transform_matrix]: the flat array of 16 numbers. *)
Definition get_transform_matrix (self : FBX2Tiles) : list R :=
  let '(ecef_x, ecef_y, ecef_z) :=
    wgs84_to_ecef (longitude self) (latitude self) (height self) in
  let lon_rad := radians (longitude self) in
  let lat_rad := radians (latitude self) in
  let east_x := (- sin lon_rad)%R in
  let east_y := cos lon_rad in
  let east_z := 0%R in
  let north_x := (- sin lat_rad * cos lon_rad)%R in
  let north_y := (- sin lat_rad * sin lon_rad)%R in
  let north_z := cos lat_rad in
  let up_x := (cos lat_rad * cos lon_rad)%R in
  let up_y := (cos lat_rad * sin lon_rad)%R in
  let up_z := sin lat_rad in
  [ east_x; north_x; up_x; 0;
    east_y; north_y; up_y; 0;
    east_z; north_z; up_z; 0;
    ecef_x; ecef_y; ecef_z; 1 ]%R.

(** Column [c] of a flat 4x4 array read in column-major order: the
    entries [4c .. 4c+3]. *)
Definition column (c : nat) (m : list R) : list R :=
  firstn 4 (skipn (4 * c) m).

(** Row [r] of a flat 4x4 array read in column-major order: the entries
    [r], [r+4], [r+8], [r+12]. *)
Definition row (r : nat) (m : list R) : list R :=
  [ nth r m 0%R; nth (r + 4) m 0%R; nth (r + 8) m 0%R; nth (r + 12) m 0%R ].

(** The local frame and position the transform is built from, as
    functions of the anchor in radians. *)
Definition East (lon_rad lat_rad : R) : list R :=
  [ - sin lon_rad; cos lon_rad; 0 ]%R.
Definition North (lon_rad lat_rad : R) : list R :=
  [ - sin lat_rad * cos lon_rad; - sin lat_rad * sin lon_rad; cos lat_rad ]%R.
Definition Up (lon_rad lat_rad : R) : list R :=
  [ cos lat_rad * cos lon_rad; cos lat_rad * sin lon_rad; sin lat_rad ]%R.

(* ================================================================== *)
(** ** The tileset hierarchy *)

Record bounding_volume : Type := { box : list Z }.

(** [calculate_bounding_volume] *)
Definition calculate_bounding_volume (transform_matrix : list R)
  : bounding_volume :=
  let model_half_width := 50 in
  let model_half_height := 50 in
  let model_half_depth := 50 in
  {| box := [ 0; 0; 0;
              model_half_width; 0; 0;
              0; model_half_height; 0;
              0; 0; model_half_depth ] |}.

(** A tile dictionary.  [transform] is present on the root only,
    [content_uri] is [content.uri] and is present on the LOD tiles only,
    [children] is a key of the root and of every tile that was given a
    child. *)
Unset Elimination Schemes.

Inductive tile : Type := Tile {
  transform : option (list R);
  boundingVolume : bounding_volume;
  geometricError : Q;
  refine : string;
  content_uri : option string;
  children : option (list tile)
}.

Set Elimination Schemes.

Record asset_info : Type := {
  version : string;
  tilesetVersion : string;
  gltfUpAxis : string
}.

Record tileset : Type := {
  asset : asset_info;
  tileset_geometricError : Q;
  root : tile
}.

(** [100 / (2 ** (i + 1))], in lowest terms. *)
Definition lod_geometric_error (i : nat) : Q :=
  Qred (100 / inject_Z (2 ^ (Z.of_nat i + 1))).

Definition tile_uri (level : Z) : string :=
  "tiles/model_lod" ++ str_of_int level ++ ".b3dm".

(** The loop [for i, lod in enumerate(reversed(lod_models))], started at
    index [i] on the tiles still to visit, threading [prev_tile]. *)
Fixpoint chain_lod_tiles (bv : bounding_volume) (i : nat)
         (lods : list lod_model) (prev_tile : option tile) : option tile :=
  match lods with
  | [] => prev_tile
  | lod :: rest =>
      let level := level lod in
      let geometric_error := lod_geometric_error i in
      let tile := {|
        transform := None;
        boundingVolume := bv;
        geometricError := geometric_error;
        refine := "REPLACE";
        content_uri := Some (tile_uri level);
        children := match prev_tile with
                    | Some p => Some [p]
                    | None => None
                    end
      |} in
      chain_lod_tiles bv (S i) rest (Some tile)
  end.

(** [create_tileset_json].  No statement of the function raises; the
    [result] type records that it returns. *)
Definition create_tileset_json (self : FBX2Tiles) (lod_models : list lod_model)
  : result tileset :=
  let transform := get_transform_matrix self in
  let bounding_volume := calculate_bounding_volume transform in
  let prev_tile := chain_lod_tiles bounding_volume 0 (rev lod_models) None in
  let root_tile := {|
    transform := Some transform;
    boundingVolume := bounding_volume;
    geometricError := 100;
    refine := "REPLACE";
    content_uri := None;
    children := Some (match prev_tile with
                      | Some p => [p]
                      | None => []
                      end)
  |} in
  Ok {| asset := {| version := "1.0"; tilesetVersion := "1.0";
                    gltfUpAxis := "Y" |};
        tileset_geometricError := 200;
        root := root_tile |}.

(** The chain below a tile: the tile itself, then its first child, and
    so on, each with its geometric error and content URI. *)
Fixpoint descend (t : tile) : list (Q * option string) :=
  (geometricError t, content_uri t) ::
  match children t with
  | Some (c :: _) => descend c
  | _ => []
  end.

(** The chain below the root (the root itself left out). *)
Definition descendant_chain (t : tile) : list (Q * option string) :=
  tl (descend t).

(** Every node of the tree has at most one child. *)
Fixpoint single_chain (t : tile) : Prop :=
  match children t with
  | None => True
  | Some [] => True
  | Some [c] => single_chain c
  | Some (_ :: _ :: _) => False
  end.

(** The tiles [create_lod_models] hands over for [n] levels: levels
    [0 .. n-1] in this order. *)
Definition tiles_0_to (n : nat) (mk : Z -> lod_model) : list lod_model :=
  map (fun k => mk (Z.of_nat k)) (seq 0 n).

(** The chain the loop leaves below the root, written from the list of
    tiles: the tile at position [k] of [lod_models] is the node number
    [k] below the root and carries the error computed at the loop index
    [length lod_models - 1 - k]. *)
Fixpoint chain_of_models (lods : list lod_model) : list (Q * option string) :=
  match lods with
  | [] => []
  | lod :: rest =>
      (lod_geometric_error (List.length rest), Some (tile_uri (level lod)))
        :: chain_of_models rest
  end.

(** The same chain for the loop started at index [i] on the tiles in
    visiting order. *)
Fixpoint chain_of_visits (i : nat) (lods : list lod_model)
  : list (Q * option string) :=
  match lods with
  | [] => []
  | lod :: rest =>
      (chain_of_visits (S i) rest
         ++ [(lod_geometric_error i, Some (tile_uri (level lod)))])%list
  end.

Definition descend_opt (p : option tile) : list (Q * option string) :=
  match p with
  | Some t => descend t
  | None => []
  end.

(** The anchor and the tiles of the three-level scenario. *)
Definition beijing : FBX2Tiles :=
  {| longitude := 116.3912757; latitude := 39.906217; height := 0 |}.

Definition lod_entry (b3dm : list byte) (bin : option (list byte))
           (emb : bool) (k : Z) : lod_model :=
  {| level := k; b3dm_data := b3dm; binary_data := bin; is_embedded := emb |}.

(** The anchor on the equator at the prime meridian. *)
Definition origin : FBX2Tiles :=
  {| longitude := 0; latitude := 0; height := 0 |}.

(* ================================================================== *)
(** ** The conversion stage around the two builders *)

(** The files [convert_gltf_to_3dtiles] writes below the output
    directory: [tiles/model_lod{level}.b3dm],
    [tiles/buffer_lod{level}.bin] and [tileset.json]. *)
Inductive output_file : Type :=
| TileFile (level : Z) (data : list byte)
| BufferFile (level : Z) (data : list byte)
| TilesetFile (t : tileset).

Definition save_lod (lod : lod_model) : list output_file :=
  TileFile (level lod) (b3dm_data lod) ::
  match external_buffer (binary_data lod) (is_embedded lod) with
  | Some data => [BufferFile (level lod) data]
  | None => []
  end.

(** [convert_gltf_to_3dtiles]: the returned flag and the files written
    (the writes themselves are taken to succeed).  An empty list of LOD
    models is refused before any tileset is built, and every exception
    is turned into [False]. *)
Definition convert_gltf_to_3dtiles (self : FBX2Tiles) (fs : gltf_files)
           (lod_levels : Z) : bool * list output_file :=
  match create_lod_models fs lod_levels with
  | Raise _ => (false, [])
  | Ok [] => (false, [])
  | Ok lod_models =>
      let written := flat_map save_lod lod_models in
      match create_tileset_json self lod_models with
      | Ok tileset => (true, (written ++ [TilesetFile tileset])%list)
      | Raise _ => (false, written)
      end
  end.

(* ================================================================== *)
(** ** The reader's view of the containers *)

(** The [k]-th little-endian 32-bit word of a byte string. *)
Definition field (k : nat) (bs : list byte) : Z :=
  le_value (slice (4 * k) (4 * k + 4) bs).

(** What follows the header and the four tables of a B3DM, located from
    the lengths the header announces. *)
Definition payload_section (b3dm : list byte) : list byte :=
  skipn (Z.to_nat (28 + field 3 b3dm + field 4 b3dm
                      + field 5 b3dm + field 6 b3dm)) b3dm.

(** [b3dm] is a B3DM container holding the two JSON tables [ft] and
    [bt], empty binary tables, and [payload]. *)
Definition is_b3dm (ft bt payload b3dm : list byte) : Prop :=
  exists header : list byte,
    b3dm = (header ++ ft ++ bt ++ payload)%list
    /\ List.length header = 28%nat
    /\ slice 0 4 header = b3dm_magic
    /\ field 1 header = 1
    /\ field 2 header = 28 + len ft + 0 + len bt + 0 + len payload
    /\ field 3 header = len ft
    /\ field 4 header = 0
    /\ field 5 header = len bt
    /\ field 6 header = 0.

(** [glb] is a GLB container: the 12-byte header, the JSON chunk with
    [gltf_bytes] unpadded, and the BIN chunk with [data]. *)
Definition is_glb (gltf_bytes data glb : list byte) : Prop :=
  exists header json_chunk_header bin_chunk_header : list byte,
    glb = (header ++ json_chunk_header ++ gltf_bytes
             ++ bin_chunk_header ++ data)%list
    /\ List.length header = 12%nat
    /\ slice 0 4 header = glTF_magic
    /\ field 1 header = 2
    /\ field 2 header = 28 + len gltf_bytes + len data
    /\ List.length json_chunk_header = 8%nat
    /\ field 0 json_chunk_header = len gltf_bytes
    /\ field 1 json_chunk_header = 0x4E4F534A
    /\ List.length bin_chunk_header = 8%nat
    /\ field 0 bin_chunk_header = len data
    /\ field 1 bin_chunk_header = 0x004E4942.

(** The two padded tables, as text. *)
Definition feature_table_text : string :=
  "{" ++ String dquote "BATCH_LENGTH" ++ String dquote ": 0} ".
Definition batch_table_text : string := "{}  ".

(** [doc'] is [doc] with the [uri] of the first entry of [buffers] set
    to [buffer_lod{lod_level}.bin] and nothing else changed: the other
    members of the document, the other buffers, and the other members of
    the first buffer keep their values and their places. *)
Definition only_uri_rewritten (lod_level : Z) (doc doc' : json) : Prop :=
  exists (before after : list (string * json))
         (buffer buffer' : list (string * json)) (others : list json),
    doc = JObj (before ++ ("buffers", JArr (JObj buffer :: others)) :: after)
    /\ doc' = JObj (before
                      ++ ("buffers", JArr (JObj buffer' :: others)) :: after)
    /\ dict_get "buffers" before = None
    /\ ((exists (pre post : list (string * json)) (old : json),
            buffer = (pre ++ ("uri", old) :: post)%list
            /\ buffer' = (pre ++ ("uri", JStr (buffer_uri lod_level))
                              :: post)%list
            /\ dict_get "uri" pre = None)
        \/ (dict_get "uri" buffer = None
            /\ buffer' = (buffer
                            ++ [("uri", JStr (buffer_uri lod_level))])%list)).

(** The asset of the length-mismatch scenario: the single buffer
    declares 1024 bytes, the sibling file holds 512. *)
Definition mismatch_document : json :=
  JObj [ ("asset", JObj [("version", JStr "2.0")]);
         ("buffers", JArr [ JObj [ ("byteLength", JInt 1024);
                                   ("uri", JStr "model.bin") ] ]) ].

Definition mismatch_files : gltf_files :=
  {| document := mismatch_document;
     sibling_bin := Some (repeat x00 512);
     listed_bins := [] |}.

(** An asset whose sibling buffer file exists and is empty. *)
Definition empty_buffer_files : gltf_files :=
  {| document := mismatch_document;
     sibling_bin := Some [];
     listed_bins := [] |}.

(** An asset with an inline buffer and no buffer file. *)
Definition embedded_files : gltf_files :=
  {| document :=
       JObj [ ("buffers", JArr [ JObj [ ("byteLength", JInt 3);
                                        ("uri", JStr "data:;base64,AAEC") ] ]) ];
     sibling_bin := None;
     listed_bins := [] |}.

(** [gltf_json['buffers'][0]['byteLength']]: the length the first
    buffer of a document declares. *)
Definition declared_byte_length (gltf_json : json) : result json :=
  bufs <- py_getitem gltf_json "buffers" ;;
  buffer <- py_getitem0 bufs ;;
  py_getitem buffer "byteLength".

(** The bytes [create_b3dm] returns for an asset (empty if it raises). *)
Definition b3dm_of (fs : gltf_files) (lod_level : Z) : list byte :=
  match create_b3dm fs lod_level with
  | Ok (b3dm, _, _) => b3dm
  | Raise _ => []
  end.

(* ================================================================== *)
(** ** Readers used by the further properties *)

(** [gltf_json['buffers'][0]['uri']] *)
Definition first_buffer_uri (gltf_json : json) : result json :=
  bufs <- py_getitem gltf_json "buffers" ;;
  buffer <- py_getitem0 bufs ;;
  py_getitem buffer "uri".

(** The size of the payload [create_b3dm] builds around [gltf_bytes]. *)
Definition payload_size (gltf_bytes : list byte)
           (binary_data : option (list byte)) (is_embedded : bool) : Z :=
  match external_buffer binary_data is_embedded with
  | Some data => len gltf_bytes + len data + 28
  | None => len gltf_bytes
  end.

(** Every code point of the string is below 128. *)
Definition is_ascii (s : string) : bool :=
  forallb (fun c => (N_of_ascii c <? 128)%N) (list_ascii_of_string s).

(** [list(range(start, start + n))] *)
Fixpoint py_range (start : Z) (n : nat) : list Z :=
  match n with
  | O => []
  | S n' => start :: py_range (start + 1) n'
  end.

(** The nodes on the chain below a tile: the tile, its first child, and
    so on. *)
Fixpoint descend_tiles (t : tile) : list tile :=
  t :: match children t with
       | Some (c :: _) => descend_tiles c
       | _ => []
       end.

(** The tile files, buffer files and tileset documents among the files
    written, in writing order. *)
Definition tile_files (files : list output_file) : list (Z * list byte) :=
  flat_map (fun f => match f with
                     | TileFile l data => [(l, data)]
                     | _ => []
                     end) files.

Definition buffer_files (files : list output_file) : list (Z * list byte) :=
  flat_map (fun f => match f with
                     | BufferFile l data => [(l, data)]
                     | _ => []
                     end) files.

Definition tileset_files (files : list output_file) : list tileset :=
  flat_map (fun f => match f with
                     | TilesetFile t => [t]
                     | _ => []
                     end) files.

(** The files of a conversion run. *)
Definition written_files (self : FBX2Tiles) (fs : gltf_files)
           (lod_levels : Z) : list output_file :=
  snd (convert_gltf_to_3dtiles self fs lod_levels).

(** The constants of the WGS84 ellipsoid [wgs84_to_ecef] uses. *)
Definition wgs84_a : R := 6378137%R.
Definition wgs84_f : R := (1 / (298257223563 / 1000000000))%R.
Definition wgs84_e_squared : R := (2 * wgs84_f - wgs84_f * wgs84_f)%R.

(** Scalar and vector products of 3-vectors given as lists. *)
Definition dot3 (u v : list R) : R :=
  (nth 0%nat u 0 * nth 0%nat v 0 + nth 1%nat u 0 * nth 1%nat v 0
   + nth 2%nat u 0 * nth 2%nat v 0)%R.

Definition cross3 (u v : list R) : list R :=
  [ nth 1%nat u 0 * nth 2%nat v 0 - nth 2%nat u 0 * nth 1%nat v 0;
    nth 2%nat u 0 * nth 0%nat v 0 - nth 0%nat u 0 * nth 2%nat v 0;
    nth 0%nat u 0 * nth 1%nat v 0 - nth 1%nat u 0 * nth 0%nat v 0 ]%R.

(* ================================================================== *)
(** * Properties *)

(** ** The tileset hierarchy *)

Section TilesetChain.

Variable bv : bounding_volume.

Lemma chain_lod_tiles_descend (lods : list lod_model) :
  forall (i : nat) (prev_tile : option tile),
    descend_opt (chain_lod_tiles bv i lods prev_tile)
    = (chain_of_visits i lods ++ descend_opt prev_tile)%list.
Proof.
  induction lods as [| lod rest IH]; intros i prev_tile.
  - reflexivity.
  - cbn [chain_lod_tiles chain_of_visits]. rewrite IH.
    rewrite <- app_assoc. f_equal.
    destruct prev_tile as [p |]; reflexivity.
Qed.

Lemma chain_lod_tiles_single (lods : list lod_model) :
  forall (i : nat) (prev_tile : option tile),
    match prev_tile with Some p => single_chain p | None => True end ->
    match chain_lod_tiles bv i lods prev_tile with
    | Some t => single_chain t
    | None => True
    end.
Proof.
  induction lods as [| lod rest IH]; intros i prev_tile Hprev.
  - exact Hprev.
  - cbn [chain_lod_tiles]. apply IH.
    destruct prev_tile as [p |]; [exact Hprev | exact I].
Qed.

End TilesetChain.

Lemma chain_of_visits_app (l1 l2 : list lod_model) :
  forall i : nat,
    chain_of_visits i (l1 ++ l2)
    = (chain_of_visits (i + List.length l1) l2 ++ chain_of_visits i l1)%list.
Proof.
  induction l1 as [| x l1 IH]; intro i; cbn [chain_of_visits app List.length].
  - rewrite Nat.add_0_r, app_nil_r. reflexivity.
  - rewrite IH, app_assoc. do 3 f_equal. lia.
Qed.

Lemma chain_of_visits_rev (lods : list lod_model) :
  chain_of_visits 0 (rev lods) = chain_of_models lods.
Proof.
  induction lods as [| x rest IH]; [reflexivity |].
  cbn [rev chain_of_models]. rewrite chain_of_visits_app.
  rewrite IH, length_rev. reflexivity.
Qed.

(** Whatever the tiles, [create_tileset_json] returns a document; the
    chain below its root lists the tiles in the order of [lod_models],
    the first one directly below the root. *)
Lemma create_tileset_json_chain (self : FBX2Tiles) (lods : list lod_model) :
  exists t : tileset,
    create_tileset_json self lods = Ok t
    /\ geometricError (root t) = 100%Q
    /\ content_uri (root t) = None
    /\ tileset_geometricError t = 200%Q
    /\ single_chain (root t)
    /\ descendant_chain (root t) = chain_of_models lods.
Proof.
  eexists. split; [reflexivity |].
  cbn [root geometricError content_uri tileset_geometricError].
  repeat split.
  - cbn [single_chain children].
    pose proof (chain_lod_tiles_single
                  (calculate_bounding_volume (get_transform_matrix self))
                  (rev lods) 0 None I) as H.
    destruct (chain_lod_tiles _ 0 (rev lods) None); [exact H | exact I].
  - unfold descendant_chain. cbn [descend children tl].
    pose proof (chain_lod_tiles_descend
                  (calculate_bounding_volume (get_transform_matrix self))
                  (rev lods) 0 None) as H.
    rewrite chain_of_visits_rev, app_nil_r in H.
    destruct (chain_lod_tiles _ 0 (rev lods) None); exact H.
Qed.



Lemma chain_of_models_levels (mk : Z -> lod_model) :
  (forall k : Z, level (mk k) = k) ->
  forall n a : nat,
    chain_of_models (map (fun k => mk (Z.of_nat k)) (seq a n))
    = map (fun k => (lod_geometric_error (a + n - 1 - k),
                     Some (tile_uri (Z.of_nat k))))
          (seq a n).
Proof.
  intros Hmk n.
  induction n as [| n IH]; intro a; [reflexivity |].
  cbn [seq map chain_of_models]. rewrite IH, Hmk.
  rewrite length_map, length_seq.
  f_equal.
  - do 2 f_equal. lia.
  - apply map_ext. intro k. do 2 f_equal. lia.
Qed.

(** For tiles at levels [0 .. n-1], the node number [k] below the root
    (the root's child is number 0) has the content of level [k] and the
    error [100 / 2 ** (n - k)]: the finest error sits directly below the
    root and the error doubles at each step down. *)
Lemma create_tileset_json_levels (self : FBX2Tiles) (mk : Z -> lod_model)
      (n : nat) :
  (forall k : Z, level (mk k) = k) ->
  exists t : tileset,
    create_tileset_json self (tiles_0_to n mk) = Ok t
    /\ geometricError (root t) = 100%Q
    /\ single_chain (root t)
    /\ descendant_chain (root t)
       = map (fun k => (lod_geometric_error (n - 1 - k),
                        Some (tile_uri (Z.of_nat k))))
             (seq 0 n).
Proof.
  intro Hmk.
  destruct (create_tileset_json_chain self (tiles_0_to n mk))
    as (t & Ht & Hroot & _ & _ & Hsingle & Hchain).
  exists t.
  refine (conj Ht (conj Hroot (conj Hsingle _))).
  rewrite Hchain. unfold tiles_0_to.
  rewrite (chain_of_models_levels mk Hmk n 0). reflexivity.
Qed.

(** C1 (evaluation of the code at three levels).  For the anchor
    (116.3912757, 39.906217, 0) and tiles at levels 0, 1, 2,
    [create_tileset_json] returns a document with error 200 whose root
    has error 100 and a single chain of three nodes below it; read from
    the root's child down, the chain is: error 12.5 with
    [tiles/model_lod0.b3dm], error 25 with [tiles/model_lod1.b3dm],
    error 50 with [tiles/model_lod2.b3dm].  The root's child is the
    level-0 tile with the smallest error, and the error doubles at each
    step down the chain; it is not the chain 50 (lod2), 25 (lod1),
    12.5 (lod0). *)
Theorem create_tileset_json_three_levels
        (b3dm : list byte) (bin : option (list byte)) (emb : bool) :
  exists t : tileset,
    create_tileset_json beijing (tiles_0_to 3 (lod_entry b3dm bin emb)) = Ok t
    /\ tileset_geometricError t = 200%Q
    /\ geometricError (root t) = 100%Q
    /\ single_chain (root t)
    /\ descendant_chain (root t)
       = [ ((25 # 2)%Q, Some "tiles/model_lod0.b3dm");
           (25%Q, Some "tiles/model_lod1.b3dm");
           (50%Q, Some "tiles/model_lod2.b3dm") ]
    /\ descendant_chain (root t)
       <> [ (50%Q, Some "tiles/model_lod2.b3dm");
            (25%Q, Some "tiles/model_lod1.b3dm");
            ((25 # 2)%Q, Some "tiles/model_lod0.b3dm") ].
Proof.
  destruct (create_tileset_json_chain
              beijing (tiles_0_to 3 (lod_entry b3dm bin emb)))
    as (t & Ht & Hroot & _ & Hdoc & Hsingle & Hchain).
  exists t.
  assert (Hvalue : descendant_chain (root t)
                   = [ ((25 # 2)%Q, Some "tiles/model_lod0.b3dm");
                       (25%Q, Some "tiles/model_lod1.b3dm");
                       (50%Q, Some "tiles/model_lod2.b3dm") ]).
  { rewrite Hchain. vm_compute. reflexivity. }
  refine (conj Ht (conj Hdoc (conj Hroot (conj Hsingle (conj Hvalue _))))).
  rewrite Hvalue. intro H. discriminate H.
Qed.

(* ================================================================== *)
(** ** The geodetic transform *)

Lemma radians_0 : radians 0 = 0%R.
Proof. unfold radians. apply Rmult_0_l. Qed.

(** In the array [get_transform_matrix] returns, read in column-major
    order, the East, North and Up vectors are the first three entries of
    rows 0, 1 and 2; the bottom row is (0, 0, 0, 1) and column 3 is the
    ECEF position. *)
Lemma get_transform_matrix_layout (self : FBX2Tiles) :
  let lon := radians (longitude self) in
  let lat := radians (latitude self) in
  let m := get_transform_matrix self in
  firstn 3 (row 0 m) = East lon lat
  /\ firstn 3 (row 1 m) = North lon lat
  /\ firstn 3 (row 2 m) = Up lon lat
  /\ row 3 m = [0; 0; 0; 1]%R
  /\ (let '(x, y, z) :=
        wgs84_to_ecef (longitude self) (latitude self) (height self) in
      column 3 m = [x; y; z; 1%R])
  /\ column 0 m = [ nth 0 (East lon lat) 0; nth 0 (North lon lat) 0;
                    nth 0 (Up lon lat) 0; 0 ]%R.
Proof.
  unfold get_transform_matrix, wgs84_to_ecef, row, column, East, North, Up.
  cbn [nth firstn skipn Nat.add Nat.mul].
  repeat split; reflexivity.
Qed.

(** C2 (evaluation of the code at longitude 0, latitude 0, height 0).
    Column 0 of the array [get_transform_matrix] returns is (0, 0, 1, 0),
    the x components of East, North and Up, whereas the East vector
    there is (0, 1, 0): column 0 is not the East vector.  Column 3 is
    the ECEF position (6378137, 0, 0) followed by 1. *)
Theorem get_transform_matrix_origin :
  column 0 (get_transform_matrix origin) = [0; 0; 1; 0]%R
  /\ East (radians 0) (radians 0) = [0; 1; 0]%R
  /\ column 0 (get_transform_matrix origin)
     <> (East (radians 0) (radians 0) ++ [0%R])%list
  /\ column 3 (get_transform_matrix origin) = [6378137; 0; 0; 1]%R.
Proof.
  assert (C0 : column 0 (get_transform_matrix origin) = [0; 0; 1; 0]%R).
  { unfold get_transform_matrix, wgs84_to_ecef, column, origin.
    cbn [longitude latitude height firstn skipn Nat.mul Nat.add].
    rewrite radians_0, sin_0, cos_0.
    repeat f_equal; lra. }
  assert (E0 : East (radians 0) (radians 0) = [0; 1; 0]%R).
  { unfold East. rewrite radians_0, sin_0, cos_0.
    repeat f_equal; lra. }
  split; [exact C0 |]. split; [exact E0 |]. split.
  - rewrite C0, E0. cbn [app]. intro H.
    injection H; intros; lra.
  - unfold get_transform_matrix, wgs84_to_ecef, column, origin.
    cbn [longitude latitude height firstn skipn Nat.mul Nat.add].
    rewrite radians_0, sin_0, cos_0.
    rewrite !Rmult_0_r, Rminus_0_r, sqrt_1.
    repeat f_equal; lra.
Qed.

(* ================================================================== *)
(** ** Little-endian fields *)

Lemma byte_of_Z_value (z : Z) :
  0 <= z < 256 -> Z.of_N (Byte.to_N (byte_of_Z z)) = z.
Proof.
  intro Hz. unfold byte_of_Z, byte_of_N.
  destruct (Byte.of_N (Z.to_N z)) as [b |] eqn:E.
  - apply Byte.to_of_N in E. rewrite E. apply Z2N.id. lia.
  - apply Byte.of_N_None_iff in E. lia.
Qed.

Lemma land_255 (n : Z) : Z.land n 255 = n mod 256.
Proof. change 255 with (Z.ones 8). rewrite Z.land_ones by lia. reflexivity. Qed.

(** A packed word is four bytes whose little-endian value is the number
    packed. *)
Lemma pack_I_inv (n : Z) (bs : list byte) :
  pack_I n = Ok bs ->
  0 <= n < 2 ^ 32
  /\ exists b0 b1 b2 b3 : byte,
       bs = [b0; b1; b2; b3] /\ le_value [b0; b1; b2; b3] = n.
Proof.
  unfold pack_I. intro H.
  destruct ((0 <=? n)%Z && (n <? 2 ^ 32)%Z)%bool eqn:Hrange; [| discriminate].
  apply andb_prop in Hrange. destruct Hrange as [Hlo Hhi].
  apply Z.leb_le in Hlo. apply Z.ltb_lt in Hhi.
  split; [lia |].
  injection H as <-. do 4 eexists. split; [reflexivity |].
  cbn [le_value].
  rewrite !land_255, !Z.shiftr_div_pow2 by lia.
  rewrite !byte_of_Z_value by (apply Z.mod_pos_bound; lia).
  change (2 ^ 8) with 256. change (2 ^ 16) with 65536.
  change (2 ^ 24) with 16777216. change (2 ^ 32) with 4294967296 in Hhi.
  Z.to_euclidean_division_equations. lia.
Qed.

Lemma pack_I_ok (n : Z) :
  0 <= n < 2 ^ 32 -> exists bs : list byte, pack_I n = Ok bs.
Proof.
  intro H. unfold pack_I.
  replace ((0 <=? n)%Z && (n <? 2 ^ 32)%Z)%bool with true.
  - eexists. reflexivity.
  - symmetry. apply andb_true_intro. split.
    + apply Z.leb_le. lia.
    + apply Z.ltb_lt. lia.
Qed.

Lemma pack_Is_cons_inv (n : Z) (ns : list Z) (bs : list byte) :
  pack_Is (n :: ns) = Ok bs ->
  0 <= n < 2 ^ 32
  /\ exists (b0 b1 b2 b3 : byte) (rest : list byte),
       bs = b0 :: b1 :: b2 :: b3 :: rest
       /\ le_value [b0; b1; b2; b3] = n
       /\ pack_Is ns = Ok rest.
Proof.
  cbn [pack_Is]. unfold bind. intro H.
  destruct (pack_I n) as [x |] eqn:Hx; [| discriminate].
  destruct (pack_Is ns) as [xs |] eqn:Hxs; [| discriminate].
  injection H as <-.
  apply pack_I_inv in Hx. destruct Hx as [Hn (b0 & b1 & b2 & b3 & -> & Hv)].
  split; [exact Hn |].
  exists b0, b1, b2, b3, xs. repeat split. exact Hv.
Qed.

Lemma pack_Is_ok (ns : list Z) :
  Forall (fun n => 0 <= n < 2 ^ 32) ns ->
  exists bs : list byte, pack_Is ns = Ok bs.
Proof.
  induction 1 as [| n ns Hn _ IH].
  - eexists. reflexivity.
  - destruct (pack_I_ok Hn) as [x Hx]. destruct IH as [xs Hxs].
    exists (x ++ xs)%list. cbn [pack_Is]. rewrite Hx, Hxs. reflexivity.
Qed.

Lemma len_nonneg (bs : list byte) : 0 <= len bs.
Proof. unfold len. lia. Qed.

Lemma len_app (xs ys : list byte) : len (xs ++ ys) = len xs + len ys.
Proof. unfold len. rewrite length_app. lia. Qed.

Lemma slice_app_l (i j : nat) (xs ys : list byte) :
  (j <= List.length xs)%nat -> slice i j (xs ++ ys) = slice i j xs.
Proof.
  intro H. unfold slice.
  rewrite skipn_app, firstn_app, length_skipn.
  replace (j - i - (List.length xs - i))%nat with 0%nat by lia.
  cbn [firstn]. apply app_nil_r.
Qed.

Lemma field_app_l (k : nat) (xs ys : list byte) :
  (4 * k + 4 <= List.length xs)%nat -> field k (xs ++ ys) = field k xs.
Proof. intro H. unfold field. rewrite slice_app_l by exact H. reflexivity. Qed.

(* ================================================================== *)
(** ** The binary container packager *)

(** The two tables are constants of the packager. *)
Lemma feature_table_json_bytes_eq :
  feature_table_json_bytes = list_byte_of_string feature_table_text.
Proof. reflexivity. Qed.

Lemma batch_table_json_bytes_eq :
  batch_table_json_bytes = list_byte_of_string batch_table_text.
Proof. reflexivity. Qed.

Lemma len_feature_table : len feature_table_json_bytes = 20.
Proof. reflexivity. Qed.

Lemma len_batch_table : len batch_table_json_bytes = 4.
Proof. reflexivity. Qed.

(** The header [make_b3dm_header] packs: 28 bytes with the seven fields
    of the layout; it exists exactly when the total fits 32 bits. *)
Lemma make_b3dm_header_inv (glb_data header : list byte) :
  make_b3dm_header glb_data = Ok header ->
  List.length header = 28%nat
  /\ slice 0 4 header = b3dm_magic
  /\ field 1 header = 1
  /\ field 2 header
     = 28 + len feature_table_json_bytes + 0
       + len batch_table_json_bytes + 0 + len glb_data
  /\ field 3 header = len feature_table_json_bytes
  /\ field 4 header = 0
  /\ field 5 header = len batch_table_json_bytes
  /\ field 6 header = 0.
Proof.
  unfold make_b3dm_header, pack_4s_Is, bind.
  destruct (pack_Is _) as [xs |] eqn:Hxs; [| discriminate].
  intro H. injection H as <-.
  apply pack_Is_cons_inv in Hxs.
  destruct Hxs as [_ (a0 & a1 & a2 & a3 & r1 & -> & H1 & Hxs)].
  apply pack_Is_cons_inv in Hxs.
  destruct Hxs as [_ (c0 & c1 & c2 & c3 & r2 & -> & H2 & Hxs)].
  apply pack_Is_cons_inv in Hxs.
  destruct Hxs as [_ (d0 & d1 & d2 & d3 & r3 & -> & H3 & Hxs)].
  apply pack_Is_cons_inv in Hxs.
  destruct Hxs as [_ (e0 & e1 & e2 & e3 & r4 & -> & H4 & Hxs)].
  apply pack_Is_cons_inv in Hxs.
  destruct Hxs as [_ (f0 & f1 & f2 & f3 & r5 & -> & H5 & Hxs)].
  apply pack_Is_cons_inv in Hxs.
  destruct Hxs as [_ (g0 & g1 & g2 & g3 & r6 & -> & H6 & Hxs)].
  cbn [pack_Is] in Hxs. injection Hxs as <-.
  unfold field, slice, b3dm_magic.
  cbn [list_byte_of_string app List.length firstn skipn
       Nat.mul Nat.add Nat.sub].
  change (len feature_table_binary) with 0 in *.
  change (len batch_table_binary) with 0 in *.
  repeat (split; [first [reflexivity | assumption] |]).
  assumption.
Qed.

Lemma make_b3dm_header_ok (glb_data : list byte) :
  52 + len glb_data < 2 ^ 32 ->
  exists header : list byte, make_b3dm_header glb_data = Ok header.
Proof.
  intro H. unfold make_b3dm_header, pack_4s_Is.
  pose proof (len_nonneg glb_data) as Hp.
  match goal with
  | |- context [pack_Is ?ns] =>
      destruct (@pack_Is_ok ns) as [xs Hxs]
  end.
  - rewrite len_feature_table, len_batch_table.
    change (len feature_table_binary) with 0.
    change (len batch_table_binary) with 0.
    repeat (apply Forall_cons; [lia |]). apply Forall_nil.
  - rewrite Hxs. eexists. reflexivity.
Qed.

(** The GLB container [glb_container] builds. *)
Lemma glb_container_inv (gltf_bytes data glb : list byte) :
  glb_container gltf_bytes data = Ok glb -> is_glb gltf_bytes data glb.
Proof.
  unfold glb_container, pack_4s_Is, bind.
  destruct (pack_Is [2; _]) as [h |] eqn:Hh; [| discriminate].
  destruct (pack_Is [len gltf_bytes; _]) as [j |] eqn:Hj; [| discriminate].
  destruct (pack_Is [len data; _]) as [c |] eqn:Hc; [| discriminate].
  intro H. injection H as <-.
  apply pack_Is_cons_inv in Hh.
  destruct Hh as [_ (a0 & a1 & a2 & a3 & r1 & -> & H1 & Hh)].
  apply pack_Is_cons_inv in Hh.
  destruct Hh as [_ (c0 & c1 & c2 & c3 & r2 & -> & H2 & Hh)].
  cbn [pack_Is] in Hh. injection Hh as <-.
  apply pack_Is_cons_inv in Hj.
  destruct Hj as [_ (d0 & d1 & d2 & d3 & r3 & -> & H3 & Hj)].
  apply pack_Is_cons_inv in Hj.
  destruct Hj as [_ (e0 & e1 & e2 & e3 & r4 & -> & H4 & Hj)].
  cbn [pack_Is] in Hj. injection Hj as <-.
  apply pack_Is_cons_inv in Hc.
  destruct Hc as [_ (f0 & f1 & f2 & f3 & r5 & -> & H5 & Hc)].
  apply pack_Is_cons_inv in Hc.
  destruct Hc as [_ (g0 & g1 & g2 & g3 & r6 & -> & H6 & Hc)].
  cbn [pack_Is] in Hc. injection Hc as <-.
  unfold is_glb.
  exists (glTF_magic ++ [a0; a1; a2; a3; c0; c1; c2; c3])%list,
         [d0; d1; d2; d3; e0; e1; e2; e3],
         [f0; f1; f2; f3; g0; g1; g2; g3].
  unfold field, slice, glTF_magic, JSON_chunk, BIN_chunk in *.
  cbn [list_byte_of_string app List.length firstn skipn
       Nat.mul Nat.add Nat.sub].
  replace (28 + len gltf_bytes + len data)
    with (len gltf_bytes + len data + 28) by lia.
  repeat (split; [first [reflexivity | assumption] |]).
  assumption.
Qed.

Lemma glb_container_ok (gltf_bytes data : list byte) :
  len gltf_bytes + len data + 28 < 2 ^ 32 ->
  exists glb : list byte,
    glb_container gltf_bytes data = Ok glb
    /\ len glb = len gltf_bytes + len data + 28.
Proof.
  intro H. unfold glb_container, pack_4s_Is.
  pose proof (len_nonneg gltf_bytes) as Hg.
  pose proof (len_nonneg data) as Hd.
  destruct (@pack_Is_ok [2; len gltf_bytes + len data + 28]) as [h Hh].
  { repeat (apply Forall_cons; [lia |]). apply Forall_nil. }
  destruct (@pack_Is_ok [len gltf_bytes; JSON_chunk]) as [j Hj].
  { unfold JSON_chunk. repeat (apply Forall_cons; [lia |]). apply Forall_nil. }
  destruct (@pack_Is_ok [len data; BIN_chunk]) as [c Hc].
  { unfold BIN_chunk. repeat (apply Forall_cons; [lia |]). apply Forall_nil. }
  rewrite Hh, Hj, Hc. cbn [bind].
  eexists. split; [reflexivity |].
  apply pack_Is_cons_inv in Hh.
  destruct Hh as [_ (a0 & a1 & a2 & a3 & r1 & -> & _ & Hh)].
  apply pack_Is_cons_inv in Hh.
  destruct Hh as [_ (c0 & c1 & c2 & c3 & r2 & -> & _ & Hh)].
  cbn [pack_Is] in Hh. injection Hh as <-.
  apply pack_Is_cons_inv in Hj.
  destruct Hj as [_ (d0 & d1 & d2 & d3 & r3 & -> & _ & Hj)].
  apply pack_Is_cons_inv in Hj.
  destruct Hj as [_ (e0 & e1 & e2 & e3 & r4 & -> & _ & Hj)].
  cbn [pack_Is] in Hj. injection Hj as <-.
  apply pack_Is_cons_inv in Hc.
  destruct Hc as [_ (f0 & f1 & f2 & f3 & r5 & -> & _ & Hc)].
  apply pack_Is_cons_inv in Hc.
  destruct Hc as [_ (g0 & g1 & g2 & g3 & r6 & -> & _ & Hc)].
  cbn [pack_Is] in Hc. injection Hc as <-.
  rewrite !len_app.
  change (len glTF_magic) with 4.
  change (len [a0; a1; a2; a3; c0; c1; c2; c3]) with 8.
  change (len [d0; d1; d2; d3; e0; e1; e2; e3]) with 8.
  change (len [f0; f1; f2; f3; g0; g1; g2; g3]) with 8.
  lia.
Qed.

Lemma payload_section_b3dm (ft bt payload b3dm : list byte) :
  is_b3dm ft bt payload b3dm -> payload_section b3dm = payload.
Proof.
  intros (header & -> & Hlen & _ & _ & _ & H3 & H4 & H5 & H6).
  unfold payload_section.
  rewrite !field_app_l by lia.
  rewrite H3, H4, H5, H6.
  rewrite !app_assoc.
  replace (Z.to_nat (28 + len ft + 0 + len bt + 0))
    with (List.length ((header ++ ft) ++ bt)).
  - rewrite skipn_app, skipn_all, Nat.sub_diag. reflexivity.
  - rewrite !length_app, Hlen. unfold len. lia.
Qed.

(** What a successful call of [create_b3dm] went through. *)
Lemma create_b3dm_inv (fs : gltf_files) (lod_level : Z)
      (b3dm : list byte) (bin : option (list byte)) (emb : bool) :
  create_b3dm fs lod_level = Ok (b3dm, bin, emb) ->
  find_binary_data fs = Ok (bin, emb)
  /\ exists (gltf_json : json) (glb_data header : list byte),
       rewrite_document (document fs) bin emb lod_level = Ok gltf_json
       /\ make_glb_data (encode_utf8 (dumps gltf_json)) bin emb = Ok glb_data
       /\ make_b3dm_header glb_data = Ok header
       /\ b3dm = (header ++ feature_table_json_bytes
                    ++ batch_table_json_bytes ++ glb_data)%list.
Proof.
  unfold create_b3dm, bind.
  destruct (find_binary_data fs) as [[bin' emb'] |]; [| discriminate].
  destruct (rewrite_document _ _ _ _) as [gltf_json |] eqn:Hdoc;
    [| discriminate].
  destruct (make_glb_data _ _ _) as [glb_data |] eqn:Hglb; [| discriminate].
  destruct (make_b3dm_header _) as [header |] eqn:Hhdr; [| discriminate].
  intro H. injection H as <- <- <-.
  split; [reflexivity |].
  exists gltf_json, glb_data, header. repeat split; assumption.
Qed.

Lemma create_b3dm_is_b3dm (glb_data header : list byte) :
  make_b3dm_header glb_data = Ok header ->
  is_b3dm feature_table_json_bytes batch_table_json_bytes glb_data
          (header ++ feature_table_json_bytes
             ++ batch_table_json_bytes ++ glb_data).
Proof.
  intro H. apply make_b3dm_header_inv in H.
  exists header. split; [reflexivity | exact H].
Qed.

(** Without external bytes the document is serialised as it is. *)
Lemma rewrite_document_no_external (doc : json) (bin : option (list byte))
      (emb : bool) (lod_level : Z) :
  external_buffer bin emb = None ->
  rewrite_document doc bin emb lod_level = Ok doc.
Proof. intro H. unfold rewrite_document. rewrite H. reflexivity. Qed.

Lemma make_glb_data_no_external (gltf_bytes : list byte)
      (bin : option (list byte)) (emb : bool) :
  external_buffer bin emb = None ->
  make_glb_data gltf_bytes bin emb = Ok gltf_bytes.
Proof. intro H. unfold make_glb_data. rewrite H. reflexivity. Qed.

(** [create_b3dm] returns as soon as the buffer is resolved, the URI
    rewrite goes through and the lengths fit the 32-bit fields. *)
Lemma create_b3dm_total (fs : gltf_files) (lod_level : Z)
      (bin : option (list byte)) (emb : bool) (gltf_json : json) :
  find_binary_data fs = Ok (bin, emb) ->
  rewrite_document (document fs) bin emb lod_level = Ok gltf_json ->
  52 + match external_buffer bin emb with
       | Some data => len (encode_utf8 (dumps gltf_json)) + len data + 28
       | None => len (encode_utf8 (dumps gltf_json))
       end < 2 ^ 32 ->
  exists b3dm : list byte, create_b3dm fs lod_level = Ok (b3dm, bin, emb).
Proof.
  intros Hfind Hdoc Hsize.
  unfold create_b3dm. rewrite Hfind. cbn [bind]. rewrite Hdoc. cbn [bind].
  pose proof (len_nonneg (encode_utf8 (dumps gltf_json))) as Hg.
  unfold make_glb_data. revert Hsize.
  destruct (external_buffer bin emb) as [data |]; intro Hsize.
  - pose proof (len_nonneg data) as Hd.
    destruct (@glb_container_ok (encode_utf8 (dumps gltf_json)) data)
      as (glb & Hglb & Hlen); [lia |].
    rewrite Hglb. cbn [bind].
    destruct (@make_b3dm_header_ok glb) as [header Hhdr]; [lia |].
    rewrite Hhdr. eexists. reflexivity.
  - cbn [bind].
    destruct (@make_b3dm_header_ok (encode_utf8 (dumps gltf_json)))
      as [header Hhdr]; [lia |].
    rewrite Hhdr. eexists. reflexivity.
Qed.

(** *** The dictionary update *)

Lemma dict_set_present (k : string) (v v' : json) (d : list (string * json)) :
  dict_get k d = Some v ->
  exists before after : list (string * json),
    d = (before ++ (k, v) :: after)%list
    /\ dict_get k before = None
    /\ dict_set k v' d = (before ++ (k, v') :: after)%list.
Proof.
  induction d as [| [k0 v0] d IH]; cbn [dict_get dict_set]; intro H.
  - discriminate.
  - destruct (String.eqb k k0) eqn:E.
    + apply String.eqb_eq in E. subst k0. injection H as ->.
      exists [], d. repeat split.
    + destruct (IH H) as (before & after & -> & Hnone & Hset).
      exists ((k0, v0) :: before), after.
      cbn [app dict_get]. rewrite E, Hset. repeat split. exact Hnone.
Qed.

Lemma dict_set_absent (k : string) (v' : json) (d : list (string * json)) :
  dict_get k d = None -> dict_set k v' d = (d ++ [(k, v')])%list.
Proof.
  induction d as [| [k0 v0] d IH]; cbn [dict_get dict_set]; intro H.
  - reflexivity.
  - destruct (String.eqb k k0); [discriminate |].
    rewrite (IH H). reflexivity.
Qed.

(** The assignment [gltf_json['buffers'][0]['uri'] = uri] goes through
    exactly on a document whose [buffers] starts with an object, and
    changes nothing but that [uri]. *)
Lemma set_first_buffer_uri_frame (doc doc' : json) (lod_level : Z) :
  set_first_buffer_uri doc (buffer_uri lod_level) = Ok doc' ->
  only_uri_rewritten lod_level doc doc'.
Proof.
  unfold set_first_buffer_uri, bind, py_getitem.
  destruct doc as [| | | | | |d]; try discriminate.
  destruct (dict_get "buffers" d) as [bufs |] eqn:Hbufs; [| discriminate].
  destruct bufs as [| | | |s |items |m]; try discriminate.
  - destruct s; discriminate.
  - destruct items as [| buffer others]; [discriminate |].
    cbn [py_getitem0].
    destruct buffer as [| | | | | |buffer]; try discriminate.
    cbn [py_setitem]. intro H. injection H as <-.
    destruct (@dict_set_present "buffers" _
                (JArr (JObj (dict_set "uri" (JStr (buffer_uri lod_level))
                                      buffer) :: others)) _ Hbufs)
      as (before & after & -> & Hnone & ->).
    exists before, after, buffer,
      (dict_set "uri" (JStr (buffer_uri lod_level)) buffer), others.
    repeat split; try assumption.
    destruct (dict_get "uri" buffer) as [old |] eqn:Huri.
    + left.
      destruct (@dict_set_present "uri" _ (JStr (buffer_uri lod_level))
                                  _ Huri)
        as (pre & post & -> & Hpre & ->).
      exists pre, post, old. repeat split. exact Hpre.
    + right. split; [reflexivity |]. apply dict_set_absent. exact Huri.
Qed.

Lemma rewrite_document_frame (doc doc' : json) (bin : option (list byte))
      (emb : bool) (lod_level : Z) :
  rewrite_document doc bin emb lod_level = Ok doc' ->
  doc' = doc
  \/ (external_buffer bin emb <> None
      /\ only_uri_rewritten lod_level doc doc').
Proof.
  unfold rewrite_document.
  destruct (external_buffer bin emb) as [data |].
  - unfold py_and at 1. cbn [bind].
    destruct (py_and _ _) as [[|] |]; cbn [bind]; intro H.
    + right. split; [discriminate |].
      apply set_first_buffer_uri_frame. exact H.
    + left. injection H as <-. reflexivity.
    + discriminate.
  - cbn. intro H. left. injection H as <-. reflexivity.
Qed.

Lemma slice_app_r (n i j : nat) (xs ys : list byte) :
  List.length xs = n -> slice (n + i) (n + j) (xs ++ ys) = slice i j ys.
Proof.
  intro H. unfold slice.
  rewrite skipn_app, skipn_all2 by lia.
  replace (n + i - List.length xs)%nat with i by lia.
  replace (n + j - (n + i))%nat with (j - i)%nat by lia.
  reflexivity.
Qed.

(** Packing fails with [struct.error] only. *)
Lemma pack_Is_raise (ns : list Z) (e : exn) :
  pack_Is ns = Raise e -> e = StructError.
Proof.
  induction ns as [| n ns IH]; cbn [pack_Is]; [discriminate |].
  unfold bind, pack_I.
  destruct ((0 <=? n)%Z && (n <? 2 ^ 32)%Z)%bool.
  - destruct (pack_Is ns) as [xs | e']; [discriminate |].
    intro H. injection H as <-. apply IH. reflexivity.
  - intro H. injection H as <-. reflexivity.
Qed.

Lemma make_glb_data_raise (gltf_bytes : list byte) (bin : option (list byte))
      (emb : bool) (e : exn) :
  make_glb_data gltf_bytes bin emb = Raise e -> e = StructError.
Proof.
  unfold make_glb_data, glb_container, pack_4s_Is, bind.
  destruct (external_buffer bin emb) as [data |]; [| discriminate].
  destruct (pack_Is [2; _]) as [h | e1] eqn:Hh.
  - destruct (pack_Is [len gltf_bytes; _]) as [j | e2] eqn:Hj.
    + destruct (pack_Is [len data; _]) as [c | e3] eqn:Hc; [discriminate |].
      intro H. injection H as <-. exact (pack_Is_raise _ Hc).
    + intro H. injection H as <-. exact (pack_Is_raise _ Hj).
  - intro H. injection H as <-. exact (pack_Is_raise _ Hh).
Qed.

Lemma make_b3dm_header_raise (glb_data : list byte) (e : exn) :
  make_b3dm_header glb_data = Raise e -> e = StructError.
Proof.
  unfold make_b3dm_header, pack_4s_Is, bind.
  destruct (pack_Is _) as [xs | e1] eqn:Hxs; [discriminate |].
  intro H. injection H as <-. exact (pack_Is_raise _ Hxs).
Qed.

(** A document whose first buffer declares a byte length is one on
    which the URI rewrite goes through. *)
Lemma declared_rewrite_ok (doc v : json) (data : list byte) (lod_level : Z) :
  declared_byte_length doc = Ok v ->
  data <> [] ->
  exists gltf_json : json,
    rewrite_document doc (Some data) false lod_level = Ok gltf_json.
Proof.
  unfold declared_byte_length, bind, py_getitem at 1.
  destruct doc as [| | | | | |d]; try discriminate.
  destruct (dict_get "buffers" d) as [bufs |] eqn:Hbufs; [| discriminate].
  destruct bufs as [| | | |s |items |m]; try discriminate.
  - destruct s; discriminate.
  - destruct items as [| buffer others]; [discriminate |].
    cbn [py_getitem0].
    destruct buffer as [| | | | | |buffer]; try discriminate.
    intros _ Hdata.
    destruct data as [| b0 data]; [contradiction |].
    unfold rewrite_document, py_and, bind, set_first_buffer_uri, bind.
    cbn [external_buffer py_contains py_getitem py_len].
    rewrite Hbufs.
    replace (0 <? Z.of_nat (List.length (JObj buffer :: others)))%Z
      with true
      by (symmetry; apply Z.ltb_lt; cbn [List.length]; lia).
    cbn [py_getitem0 py_setitem]. eexists. reflexivity.
Qed.

(* ------------------------------------------------------------------ *)
(** *** The B3DM layout *)

(** C6.  The bytes [create_b3dm] returns are a 28-byte header with magic
    [b3dm], version 1, a little-endian total length equal to 28 plus the
    lengths of the feature-table JSON, the feature-table binary, the
    batch-table JSON, the batch-table binary and the payload, with both
    binary-table lengths 0, followed by the feature-table JSON bytes, the
    batch-table JSON bytes and the payload, in that order; the total
    length announced is the length of the bytes returned.  This holds
    with or without an external buffer. *)
Theorem create_b3dm_layout (fs : gltf_files) (lod_level : Z)
        (b3dm : list byte) (bin : option (list byte)) (emb : bool) :
  create_b3dm fs lod_level = Ok (b3dm, bin, emb) ->
  exists (gltf_json : json) (payload : list byte),
    rewrite_document (document fs) bin emb lod_level = Ok gltf_json
    /\ make_glb_data (encode_utf8 (dumps gltf_json)) bin emb = Ok payload
    /\ is_b3dm feature_table_json_bytes batch_table_json_bytes payload b3dm
    /\ field 2 b3dm = len b3dm
    /\ field 4 b3dm = 0
    /\ field 6 b3dm = 0.
Proof.
  intro H. apply create_b3dm_inv in H.
  destruct H as [_ (gltf_json & glb & header & Hdoc & Hglb & Hhdr & ->)].
  exists gltf_json, glb.
  pose proof (@make_b3dm_header_inv _ _ Hhdr)
    as (Hlen & _ & _ & H2 & _ & H4 & _ & H6).
  refine (conj Hdoc (conj Hglb (conj (@create_b3dm_is_b3dm _ _ Hhdr) _))).
  rewrite !field_app_l by lia.
  rewrite H2, H4, H6, !len_app.
  assert (Hh : len header = 28) by (unfold len; rewrite Hlen; reflexivity).
  rewrite Hh.
  split; [lia |]. split; reflexivity.
Qed.

Lemma create_b3dm_layout_witness :
  create_b3dm mismatch_files 2
  = Ok (b3dm_of mismatch_files 2, Some (repeat x00 512), false)
  /\ exists (gltf_json : json) (payload : list byte),
       rewrite_document (document mismatch_files)
                        (Some (repeat x00 512)) false 2 = Ok gltf_json
       /\ make_glb_data (encode_utf8 (dumps gltf_json))
                        (Some (repeat x00 512)) false = Ok payload
       /\ is_b3dm feature_table_json_bytes batch_table_json_bytes payload
                  (b3dm_of mismatch_files 2)
       /\ field 2 (b3dm_of mismatch_files 2) = len (b3dm_of mismatch_files 2)
       /\ field 4 (b3dm_of mismatch_files 2) = 0
       /\ field 6 (b3dm_of mismatch_files 2) = 0.
Proof.
  split.
  - vm_compute. reflexivity.
  - apply (@create_b3dm_layout mismatch_files 2).
    vm_compute. reflexivity.
Defined.

(** C9.  In every B3DM [create_b3dm] returns, the feature-table JSON
    length and the batch-table JSON length of the header are multiples
    of 4; the feature table is the serialisation of
    [{"BATCH_LENGTH": 0}] followed by one space, the batch table the
    serialisation of [{}] followed by two spaces. *)
Theorem create_b3dm_tables_aligned (fs : gltf_files) (lod_level : Z)
        (b3dm : list byte) (bin : option (list byte)) (emb : bool) :
  create_b3dm fs lod_level = Ok (b3dm, bin, emb) ->
  field 3 b3dm mod 4 = 0
  /\ field 5 b3dm mod 4 = 0
  /\ slice 28 (28 + Z.to_nat (field 3 b3dm)) b3dm
     = encode_utf8 (dumps (JObj [("BATCH_LENGTH", JInt 0)]) ++ " ")
  /\ slice (28 + Z.to_nat (field 3 b3dm))
           (28 + Z.to_nat (field 3 b3dm) + Z.to_nat (field 5 b3dm)) b3dm
     = encode_utf8 (dumps (JObj []) ++ "  ").
Proof.
  intro H. apply create_b3dm_inv in H.
  destruct H as [_ (gltf_json & glb & header & _ & _ & Hhdr & ->)].
  pose proof (@make_b3dm_header_inv _ _ Hhdr)
    as (Hlen & _ & _ & _ & H3 & _ & H5 & _).
  rewrite !field_app_l by lia.
  rewrite H3, H5, len_feature_table, len_batch_table.
  split; [reflexivity |]. split; [reflexivity |].
  change (Z.to_nat 20) with 20%nat. change (Z.to_nat 4) with 4%nat.
  split.
  - change 28%nat with (28 + 0)%nat at 1.
    rewrite (@slice_app_r 28 0 20 header _ Hlen).
    rewrite slice_app_l by (vm_compute; lia).
    vm_compute. reflexivity.
  - change (28 + 20 + 4)%nat with (28 + 24)%nat.
    rewrite (@slice_app_r 28 20 24 header _ Hlen).
    change 20%nat with (20 + 0)%nat. change 24%nat with (20 + 4)%nat.
    rewrite (@slice_app_r 20 0 4 feature_table_json_bytes _ eq_refl).
    rewrite slice_app_l by (vm_compute; lia).
    vm_compute. reflexivity.
Qed.

Lemma create_b3dm_tables_aligned_witness :
  create_b3dm embedded_files 1 = Ok (b3dm_of embedded_files 1, None, true)
  /\ field 3 (b3dm_of embedded_files 1) mod 4 = 0
  /\ field 5 (b3dm_of embedded_files 1) mod 4 = 0.
Proof.
  split.
  - vm_compute. reflexivity.
  - destruct (@create_b3dm_tables_aligned
                embedded_files 1 (b3dm_of embedded_files 1) None true)
      as (H3 & H5 & _).
    + vm_compute. reflexivity.
    + split; [exact H3 | exact H5].
Defined.

(* ------------------------------------------------------------------ *)
(** *** The payload *)

Lemma external_buffer_some (data : list byte) :
  data <> [] -> external_buffer (Some data) false = Some data.
Proof. destruct data; [contradiction | reflexivity]. Qed.

(** The payload of the bytes returned is what [make_glb_data] built
    from the document [rewrite_document] returned. *)
Lemma create_b3dm_payload_inv (fs : gltf_files) (lod_level : Z)
      (b3dm : list byte) (bin : option (list byte)) (emb : bool) :
  create_b3dm fs lod_level = Ok (b3dm, bin, emb) ->
  find_binary_data fs = Ok (bin, emb)
  /\ exists gltf_json : json,
       rewrite_document (document fs) bin emb lod_level = Ok gltf_json
       /\ make_glb_data (encode_utf8 (dumps gltf_json)) bin emb
          = Ok (payload_section b3dm).
Proof.
  intro H. apply create_b3dm_inv in H.
  destruct H as [Hfind (gltf_json & glb & header & Hdoc & Hglb & Hhdr & ->)].
  split; [exact Hfind |].
  exists gltf_json. split; [exact Hdoc |].
  rewrite (payload_section_b3dm (@create_b3dm_is_b3dm _ _ Hhdr)).
  exact Hglb.
Qed.

(** C5 (as amended).  For every asset whose external buffer is a
    non-empty byte string, the payload of the bytes [create_b3dm] returns
    is the GLB container: the 12-byte header (magic [glTF], version 2,
    little-endian total length 28 + len(gltf_bytes) + len(buffer)), the
    JSON chunk (length of [gltf_bytes], tag 0x4E4F534A, [gltf_bytes] with
    no padding) and the BIN chunk (length of the buffer, tag 0x004E4942,
    the buffer bytes). *)
Theorem create_b3dm_external_glb (fs : gltf_files) (lod_level : Z)
        (data b3dm : list byte) (bin : option (list byte)) (emb : bool) :
  find_binary_data fs = Ok (Some data, false) ->
  data <> [] ->
  create_b3dm fs lod_level = Ok (b3dm, bin, emb) ->
  bin = Some data
  /\ emb = false
  /\ exists gltf_json : json,
       rewrite_document (document fs) (Some data) false lod_level
       = Ok gltf_json
       /\ is_glb (encode_utf8 (dumps gltf_json)) data (payload_section b3dm).
Proof.
  intros Hfind Hdata H. apply create_b3dm_payload_inv in H.
  destruct H as [Hfind' (gltf_json & Hdoc & Hglb)].
  rewrite Hfind in Hfind'. injection Hfind' as <- <-.
  split; [reflexivity |]. split; [reflexivity |].
  exists gltf_json. split; [exact Hdoc |].
  unfold make_glb_data in Hglb.
  rewrite (external_buffer_some Hdata) in Hglb.
  apply glb_container_inv. exact Hglb.
Qed.

Lemma create_b3dm_external_glb_witness :
  find_binary_data mismatch_files = Ok (Some (repeat x00 512), false)
  /\ repeat x00 512 <> []
  /\ create_b3dm mismatch_files 2
     = Ok (b3dm_of mismatch_files 2, Some (repeat x00 512), false)
  /\ exists gltf_json : json,
       rewrite_document (document mismatch_files)
                        (Some (repeat x00 512)) false 2 = Ok gltf_json
       /\ is_glb (encode_utf8 (dumps gltf_json)) (repeat x00 512)
                 (payload_section (b3dm_of mismatch_files 2)).
Proof.
  assert (Hfind : find_binary_data mismatch_files
                  = Ok (Some (repeat x00 512), false))
    by reflexivity.
  assert (Hdata : repeat x00 512 <> []) by (simpl; discriminate).
  assert (Hrun : create_b3dm mismatch_files 2
                 = Ok (b3dm_of mismatch_files 2,
                       Some (repeat x00 512), false))
    by (vm_compute; reflexivity).
  refine (conj Hfind (conj Hdata (conj Hrun _))).
  exact (proj2 (proj2 (@create_b3dm_external_glb
                         mismatch_files 2 (repeat x00 512)
                         (b3dm_of mismatch_files 2)
                         (Some (repeat x00 512)) false
                         Hfind Hdata Hrun))).
Defined.

(** C5 (counterexample).  The sibling buffer file exists and is empty:
    [find_binary_data] reports external data, and the payload is the
    serialised document itself, which is no GLB container. *)
Lemma create_b3dm_empty_external_buffer :
  find_binary_data empty_buffer_files = Ok (Some [], false)
  /\ exists b3dm : list byte,
       create_b3dm empty_buffer_files 0 = Ok (b3dm, Some [], false)
       /\ payload_section b3dm = encode_utf8 (dumps mismatch_document)
       /\ forall gltf_bytes : list byte,
            ~ is_glb gltf_bytes [] (payload_section b3dm).
Proof.
  split; [reflexivity |].
  exists (b3dm_of empty_buffer_files 0).
  split; [vm_compute; reflexivity |].
  split; [vm_compute; reflexivity |].
  intros g (h & j & c & Hp & Hlen & Hmagic & _).
  assert (E : slice 0 4 (payload_section (b3dm_of empty_buffer_files 0))
              = glTF_magic).
  { rewrite Hp, slice_app_l by lia. exact Hmagic. }
  vm_compute in E. discriminate E.
Qed.

(** C7.  For every asset with no external buffer bytes (the buffer is
    embedded or absent), the payload section of the bytes [create_b3dm]
    returns is the serialisation of the input document: no GLB wrapper,
    no URI rewrite. *)
Theorem create_b3dm_no_external_payload (fs : gltf_files) (lod_level : Z)
        (b3dm : list byte) (bin : option (list byte)) (emb e : bool) :
  find_binary_data fs = Ok (None, emb) ->
  create_b3dm fs lod_level = Ok (b3dm, bin, e) ->
  bin = None
  /\ e = emb
  /\ payload_section b3dm = encode_utf8 (dumps (document fs)).
Proof.
  intros Hfind H. apply create_b3dm_inv in H.
  destruct H as [Hfind' (gltf_json & glb & header & Hdoc & Hglb & Hhdr & ->)].
  rewrite Hfind in Hfind'. injection Hfind' as <- <-.
  split; [reflexivity |]. split; [reflexivity |].
  rewrite (payload_section_b3dm (@create_b3dm_is_b3dm _ _ Hhdr)).
  rewrite rewrite_document_no_external in Hdoc by reflexivity.
  injection Hdoc as <-.
  rewrite make_glb_data_no_external in Hglb by reflexivity.
  injection Hglb as <-. reflexivity.
Qed.

Lemma create_b3dm_no_external_payload_witness :
  find_binary_data embedded_files = Ok (None, true)
  /\ create_b3dm embedded_files 1 = Ok (b3dm_of embedded_files 1, None, true)
  /\ payload_section (b3dm_of embedded_files 1)
     = encode_utf8 (dumps (document embedded_files)).
Proof.
  assert (Hfind : find_binary_data embedded_files = Ok (None, true))
    by reflexivity.
  assert (Hrun : create_b3dm embedded_files 1
                 = Ok (b3dm_of embedded_files 1, None, true))
    by (vm_compute; reflexivity).
  refine (conj Hfind (conj Hrun _)).
  exact (proj2 (proj2 (@create_b3dm_no_external_payload
                         embedded_files 1 (b3dm_of embedded_files 1)
                         None true true Hfind Hrun))).
Defined.

(** C10.  For every asset whose buffer resolution reports no external
    bytes, [create_b3dm] gives the same outcome at every two LOD levels;
    and it returns bytes as soon as the serialised document fits the
    32-bit length field. *)
Theorem create_b3dm_lod_independent (fs : gltf_files) (emb : bool)
        (i j : Z) :
  find_binary_data fs = Ok (None, emb) ->
  create_b3dm fs i = create_b3dm fs j
  /\ (52 + len (encode_utf8 (dumps (document fs))) < 2 ^ 32 ->
      exists b3dm : list byte,
        create_b3dm fs i = Ok (b3dm, None, emb)
        /\ create_b3dm fs j = Ok (b3dm, None, emb)).
Proof.
  intro Hfind.
  assert (Heq : create_b3dm fs i = create_b3dm fs j).
  { unfold create_b3dm. rewrite Hfind. cbn [bind].
    rewrite !rewrite_document_no_external by reflexivity. reflexivity. }
  split; [exact Heq |].
  intro Hsize.
  destruct (@create_b3dm_total fs i None emb (document fs) Hfind)
    as [b3dm Hb].
  - apply rewrite_document_no_external. reflexivity.
  - exact Hsize.
  - exists b3dm. split; [exact Hb | rewrite <- Heq; exact Hb].
Qed.

Lemma create_b3dm_lod_independent_witness :
  find_binary_data embedded_files = Ok (None, true)
  /\ create_b3dm embedded_files 0 = create_b3dm embedded_files 7.
Proof.
  assert (Hfind : find_binary_data embedded_files = Ok (None, true))
    by reflexivity.
  exact (conj Hfind
              (proj1 (@create_b3dm_lod_independent
                        embedded_files true 0 7 Hfind))).
Defined.

(* ------------------------------------------------------------------ *)
(** *** The URI rewrite *)

(** C8.  For every asset and LOD level, the document [create_b3dm]
    serialises into the payload is the input document, except that the
    [uri] of the first entry of [buffers] may have been set to
    [buffer_lod{level}.bin]; this happens only when an external buffer
    is present.  Every other member of the document, and the whole
    document when the buffer is embedded or absent, is serialised
    unchanged. *)
Theorem create_b3dm_rewrites_only_uri (fs : gltf_files) (lod_level : Z)
        (b3dm : list byte) (bin : option (list byte)) (emb : bool) :
  create_b3dm fs lod_level = Ok (b3dm, bin, emb) ->
  exists gltf_json : json,
    make_glb_data (encode_utf8 (dumps gltf_json)) bin emb
    = Ok (payload_section b3dm)
    /\ (external_buffer bin emb = None -> gltf_json = document fs)
    /\ (gltf_json = document fs
        \/ (external_buffer bin emb <> None
            /\ only_uri_rewritten lod_level (document fs) gltf_json)).
Proof.
  intro H. apply create_b3dm_inv in H.
  destruct H as [_ (gltf_json & glb & header & Hdoc & Hglb & Hhdr & ->)].
  exists gltf_json.
  rewrite (payload_section_b3dm (@create_b3dm_is_b3dm _ _ Hhdr)).
  split; [exact Hglb |]. split.
  - intro Hnone.
    rewrite rewrite_document_no_external in Hdoc by exact Hnone.
    injection Hdoc as <-. reflexivity.
  - apply (@rewrite_document_frame _ _ bin emb). exact Hdoc.
Qed.

Lemma create_b3dm_rewrites_only_uri_witness :
  create_b3dm mismatch_files 2
  = Ok (b3dm_of mismatch_files 2, Some (repeat x00 512), false)
  /\ exists gltf_json : json,
       make_glb_data (encode_utf8 (dumps gltf_json))
                     (Some (repeat x00 512)) false
       = Ok (payload_section (b3dm_of mismatch_files 2))
       /\ (external_buffer (Some (repeat x00 512)) false = None ->
           gltf_json = document mismatch_files)
       /\ (gltf_json = document mismatch_files
           \/ (external_buffer (Some (repeat x00 512)) false <> None
               /\ only_uri_rewritten 2 (document mismatch_files) gltf_json)).
Proof.
  assert (Hrun : create_b3dm mismatch_files 2
                 = Ok (b3dm_of mismatch_files 2,
                       Some (repeat x00 512), false))
    by (vm_compute; reflexivity).
  exact (conj Hrun (@create_b3dm_rewrites_only_uri
                      mismatch_files 2 (b3dm_of mismatch_files 2)
                      (Some (repeat x00 512)) false Hrun)).
Defined.

(** On the asset of the scenario the rewrite does happen: the document
    serialised for level 2 carries [buffer_lod2.bin]. *)
Lemma rewrite_document_mismatch :
  rewrite_document mismatch_document (Some (repeat x00 512)) false 2
  = Ok (JObj [ ("asset", JObj [("version", JStr "2.0")]);
               ("buffers", JArr [ JObj [ ("byteLength", JInt 1024);
                                         ("uri", JStr "buffer_lod2.bin") ] ]) ]).
Proof. reflexivity. Qed.

(* ------------------------------------------------------------------ *)
(** *** The declared buffer length *)

(** C3 (counterexample).  The document declares a buffer of 1024 bytes
    with no inline encoding, the external buffer supplied has 512 bytes:
    [create_b3dm] raises nothing and returns the packaged bytes. *)
Lemma create_b3dm_length_mismatch_returns :
  declared_byte_length (document mismatch_files) = Ok (JInt 1024)
  /\ find_binary_data mismatch_files = Ok (Some (repeat x00 512), false)
  /\ len (repeat x00 512) = 512
  /\ (exists b3dm : list byte,
        create_b3dm mismatch_files 0
        = Ok (b3dm, Some (repeat x00 512), false))
  /\ forall e : exn, create_b3dm mismatch_files 0 <> Raise e.
Proof.
  split; [reflexivity |]. split; [reflexivity |]. split; [reflexivity |].
  assert (Hrun : create_b3dm mismatch_files 0
                 = Ok (b3dm_of mismatch_files 0,
                       Some (repeat x00 512), false))
    by (vm_compute; reflexivity).
  split.
  - exists (b3dm_of mismatch_files 0). exact Hrun.
  - intros e He. rewrite Hrun in He. discriminate He.
Qed.

(** C3 (as amended).  [create_b3dm] does not compare the byte length a
    document declares with the external buffer supplied.  For every
    asset whose first buffer declares a length [L] and whose non-empty
    external buffer has a different length, the URI rewrite goes
    through; packaging returns the bytes, with the supplied buffer and
    its actual length in the BIN chunk, whenever the lengths fit the
    32-bit fields; and the only exception it can raise is [struct.error]
    for a length that does not fit. *)
Theorem create_b3dm_ignores_declared_length (fs : gltf_files)
        (lod_level L : Z) (data : list byte) :
  declared_byte_length (document fs) = Ok (JInt L) ->
  find_binary_data fs = Ok (Some data, false) ->
  data <> [] ->
  len data <> L ->
  exists gltf_json : json,
    rewrite_document (document fs) (Some data) false lod_level = Ok gltf_json
    /\ (52 + (len (encode_utf8 (dumps gltf_json)) + len data + 28) < 2 ^ 32 ->
        exists b3dm : list byte,
          create_b3dm fs lod_level = Ok (b3dm, Some data, false)
          /\ is_glb (encode_utf8 (dumps gltf_json)) data
                    (payload_section b3dm))
    /\ (forall e : exn, create_b3dm fs lod_level = Raise e -> e = StructError).
Proof.
  intros Hdecl Hfind Hdata _.
  destruct (@declared_rewrite_ok _ _ data lod_level Hdecl Hdata)
    as [gltf_json Hdoc].
  exists gltf_json. split; [exact Hdoc |]. split.
  - intro Hsize.
    destruct (@create_b3dm_total fs lod_level (Some data) false gltf_json
                                 Hfind Hdoc) as [b3dm Hb].
    + rewrite (external_buffer_some Hdata). exact Hsize.
    + exists b3dm. split; [exact Hb |].
      destruct (@create_b3dm_payload_inv fs lod_level b3dm
                                         (Some data) false Hb)
        as (_ & gltf_json' & Hdoc' & Hglb).
      rewrite Hdoc in Hdoc'. injection Hdoc' as <-.
      unfold make_glb_data in Hglb.
      rewrite (external_buffer_some Hdata) in Hglb.
      apply glb_container_inv. exact Hglb.
  - intros e. unfold create_b3dm. rewrite Hfind. cbn [bind].
    rewrite Hdoc. cbn [bind].
    destruct (make_glb_data _ _ _) as [glb | e1] eqn:Hglb; cbn [bind].
    + destruct (make_b3dm_header glb) as [header | e2] eqn:Hhdr;
        cbn [bind]; [discriminate |].
      intro H. injection H as <-. exact (make_b3dm_header_raise _ Hhdr).
    + intro H. injection H as <-. exact (make_glb_data_raise _ _ _ Hglb).
Qed.

Lemma create_b3dm_ignores_declared_length_witness :
  declared_byte_length (document mismatch_files) = Ok (JInt 1024)
  /\ find_binary_data mismatch_files = Ok (Some (repeat x00 512), false)
  /\ repeat x00 512 <> []
  /\ len (repeat x00 512) <> 1024
  /\ exists gltf_json : json,
       rewrite_document (document mismatch_files)
                        (Some (repeat x00 512)) false 0 = Ok gltf_json
       /\ (52 + (len (encode_utf8 (dumps gltf_json))
                 + len (repeat x00 512) + 28) < 2 ^ 32 ->
           exists b3dm : list byte,
             create_b3dm mismatch_files 0
             = Ok (b3dm, Some (repeat x00 512), false)
             /\ is_glb (encode_utf8 (dumps gltf_json)) (repeat x00 512)
                       (payload_section b3dm))
       /\ (forall e : exn,
             create_b3dm mismatch_files 0 = Raise e -> e = StructError).
Proof.
  assert (Hdecl : declared_byte_length (document mismatch_files)
                  = Ok (JInt 1024)) by reflexivity.
  assert (Hfind : find_binary_data mismatch_files
                  = Ok (Some (repeat x00 512), false)) by reflexivity.
  assert (Hdata : repeat x00 512 <> []) by (simpl; discriminate).
  assert (Hlen : len (repeat x00 512) <> 1024) by (vm_compute; discriminate).
  exact (conj Hdecl (conj Hfind (conj Hdata (conj Hlen
           (@create_b3dm_ignores_declared_length
              mismatch_files 0 1024 (repeat x00 512)
              Hdecl Hfind Hdata Hlen))))).
Defined.

(* ================================================================== *)
(** ** The empty tile list *)

(** C4 (counterexample).  With an empty list of tiles
    [create_tileset_json] raises nothing: it returns a tileset document
    whose root has no children. *)
Lemma create_tileset_json_empty_returns :
  (exists t : tileset,
     create_tileset_json beijing [] = Ok t
     /\ children (root t) = Some [])
  /\ forall e : exn, create_tileset_json beijing [] <> Raise e.
Proof.
  split.
  - eexists. split; reflexivity.
  - intros e He. discriminate He.
Qed.

(** C4 (as amended).  With an empty list of tiles [create_tileset_json]
    does not fail: it returns the tileset document with error 200 whose
    root carries the transform, error 100, no content and an empty list
    of children.  The empty list is refused one step earlier:
    [convert_gltf_to_3dtiles] returns [False] and writes no file when
    [create_lod_models] produced no tile, as it does for zero levels. *)
Theorem create_tileset_json_empty (self : FBX2Tiles) :
  (exists t : tileset,
     create_tileset_json self [] = Ok t
     /\ tileset_geometricError t = 200%Q
     /\ geometricError (root t) = 100%Q
     /\ transform (root t) = Some (get_transform_matrix self)
     /\ content_uri (root t) = None
     /\ children (root t) = Some [])
  /\ (forall fs : gltf_files, create_lod_models fs 0 = Ok [])
  /\ (forall fs : gltf_files, convert_gltf_to_3dtiles self fs 0 = (false, [])).
Proof.
  split.
  - eexists. split; [reflexivity |].
    cbn [root tileset_geometricError geometricError transform
         content_uri children].
    repeat split.
  - split; intro fs; reflexivity.
Qed.

(* ================================================================== *)
(** * Further properties *)

(** ** Buffer resolution *)

(** The guard ['buffers' in gltf_json and len(gltf_json['buffers']) > 0]
    holds only on an object whose [buffers] member is a non-empty list,
    string or object. *)
Lemma has_buffers_true (doc : json) :
  py_and (py_contains "buffers" doc)
         (bufs <- py_getitem doc "buffers" ;;
          n <- py_len bufs ;; Ok (0 <? n)%Z) = Ok true ->
  exists (d : list (string * json)) (bufs : json),
    doc = JObj d
    /\ dict_get "buffers" d = Some bufs
    /\ ((exists x r, bufs = JArr (x :: r))
        \/ (exists c s, bufs = JStr (String c s))
        \/ (exists p m, bufs = JObj (p :: m))).
Proof.
  unfold py_and, bind.
  destruct doc as [| | | |s |l |d]; cbn [py_contains py_getitem];
    try discriminate.
  - destruct (is_substring "buffers" s); discriminate.
  - destruct (existsb (is_str "buffers") l); discriminate.
  - destruct (dict_get "buffers" d) as [bufs |] eqn:Hb; [| discriminate].
    intro H. exists d, bufs. split; [reflexivity |]. split; [exact Hb |].
    destruct bufs as [| | | |s |l |m]; cbn [py_len] in H; try discriminate.
    + destruct s as [| c s]; [discriminate H |]. right. left. eauto.
    + destruct l as [| x r]; [discriminate H |]. left. eauto.
    + destruct m as [| p m]; [discriminate H |]. right. right. eauto.
Qed.

Lemma has_buffers_raise (doc : json) (e : exn) :
  py_and (py_contains "buffers" doc)
         (bufs <- py_getitem doc "buffers" ;;
          n <- py_len bufs ;; Ok (0 <? n)%Z) = Raise e ->
  e = TypeError.
Proof.
  unfold py_and, bind.
  destruct doc as [| | | |s |l |d]; cbn [py_contains py_getitem];
    try (intro H; injection H as <-; reflexivity).
  - destruct (is_substring "buffers" s);
      intro H; [injection H as <-; reflexivity | discriminate H].
  - destruct (existsb (is_str "buffers") l);
      intro H; [injection H as <-; reflexivity | discriminate H].
  - destruct (dict_get "buffers" d) as [bufs |]; [| discriminate].
    destruct bufs; cbn [py_len]; intro H;
      first [discriminate H | injection H as <-; reflexivity].
Qed.

Lemma uri_not_in_char (c : ascii) : is_substring "uri" (String c "") = false.
Proof.
  cbn [is_substring String.prefix orb].
  destruct (ascii_dec "u" c); reflexivity.
Qed.

(** [find_binary_data] reports an embedded buffer exactly when there is
    no sibling [.bin] file, no [.bin] file in the directory, and the
    first entry of the document's [buffers] list is an object whose
    [uri] is a string starting with [data:]. *)
Theorem find_binary_data_embedded_iff (fs : gltf_files) :
  find_binary_data fs = Ok (None, true) <->
  sibling_bin fs = None
  /\ listed_bins fs = []
  /\ exists (d buffer : list (string * json)) (rest : list json) (u : string),
       document fs = JObj d
       /\ dict_get "buffers" d = Some (JArr (JObj buffer :: rest))
       /\ dict_get "uri" buffer = Some (JStr u)
       /\ String.prefix "data:" u = true.
Proof.
  unfold find_binary_data. split.
  - destruct (sibling_bin fs); [discriminate |].
    destruct (listed_bins fs); [| discriminate].
    intro H. split; [reflexivity |]. split; [reflexivity |].
    unfold bind at 1 in H.
    destruct (py_and _ _) as [[|] |] eqn:Hguard; try discriminate.
    destruct (has_buffers_true _ Hguard) as (d & bufs & Hdoc & Hb & Hshape).
    rewrite Hdoc in H. cbn [py_getitem bind] in H. rewrite Hb in H.
    cbn [bind] in H.
    destruct Hshape as [(x & r & ->) | [(c & s & ->) | (p & m & ->)]];
      cbn [py_getitem0 bind] in H; try discriminate.
    + unfold py_and, bind in H.
      destruct x as [| | | |s |l |buffer]; cbn [py_contains py_getitem] in H;
        try discriminate.
      * destruct (is_substring "uri" s); discriminate.
      * destruct (existsb (is_str "uri") l); discriminate.
      * destruct (dict_get "uri" buffer) as [u |] eqn:Hu; [| discriminate].
        destruct u as [| | | |u | |]; cbn [py_startswith] in H;
          try discriminate.
        destruct (String.prefix "data:" u) eqn:Hp; [| discriminate].
        exists d, buffer, r, u. repeat split; assumption.
    + unfold py_and, bind in H. cbn [py_contains] in H.
      rewrite uri_not_in_char in H. discriminate.
  - intros (Hs & Hl & d & buffer & rest & u & Hdoc & Hb & Hu & Hp).
    rewrite Hs, Hl, Hdoc. unfold py_and, bind.
    cbn [py_contains py_getitem]. rewrite Hb. cbn [py_len].
    replace (0 <? Z.of_nat (List.length (JObj buffer :: rest)))%Z with true
      by (symmetry; apply Z.ltb_lt; cbn [List.length]; lia).
    cbn [py_getitem0 py_contains py_getitem]. rewrite Hu.
    cbn [py_startswith]. rewrite Hp. reflexivity.
Qed.

(** Bytes are never reported as embedded: when [find_binary_data]
    returns bytes, the flag is [False] and the bytes are the content of
    the sibling [.bin] file or, when there is none, of the first [.bin]
    file listed in the directory. *)
Theorem find_binary_data_bytes_external (fs : gltf_files)
        (data : list byte) (emb : bool) :
  find_binary_data fs = Ok (Some data, emb) ->
  emb = false
  /\ (sibling_bin fs = Some data
      \/ (sibling_bin fs = None
          /\ exists more : list (list byte), listed_bins fs = data :: more)).
Proof.
  unfold find_binary_data.
  destruct (sibling_bin fs) as [d0 |].
  - intro H. injection H as -> <-. split; [reflexivity |]. left. reflexivity.
  - destruct (listed_bins fs) as [| d0 more].
    + unfold bind at 1.
      destruct (py_and _ _) as [[|] |]; try discriminate.
      unfold bind.
      destruct (py_getitem _ _); [| discriminate].
      destruct (py_getitem0 _); [| discriminate].
      destruct (py_and _ _) as [[|] |]; discriminate.
    + intro H. injection H as -> <-. split; [reflexivity |].
      right. split; [reflexivity |]. exists more. reflexivity.
Qed.

Lemma find_binary_data_bytes_external_witness :
  find_binary_data mismatch_files = Ok (Some (repeat x00 512), false)
  /\ sibling_bin mismatch_files = Some (repeat x00 512).
Proof.
  assert (Hfind : find_binary_data mismatch_files
                  = Ok (Some (repeat x00 512), false)) by reflexivity.
  split; [exact Hfind |].
  destruct (proj2 (@find_binary_data_bytes_external
                     mismatch_files (repeat x00 512) false Hfind))
    as [Hs | [Hs _]].
  - exact Hs.
  - discriminate Hs.
Defined.

(** [find_binary_data] raises only when no [.bin] file is found, and
    then only [TypeError], [KeyError] or [AttributeError] from a
    document of an unexpected shape: the [len(...) > 0] test keeps the
    access [buffers[0]] from raising [IndexError]. *)
Theorem find_binary_data_raises (fs : gltf_files) (e : exn) :
  find_binary_data fs = Raise e ->
  sibling_bin fs = None
  /\ listed_bins fs = []
  /\ (e = TypeError \/ e = KeyError \/ e = AttributeError).
Proof.
  unfold find_binary_data.
  destruct (sibling_bin fs); [discriminate |].
  destruct (listed_bins fs); [| discriminate].
  intro H. split; [reflexivity |]. split; [reflexivity |].
  unfold bind at 1 in H.
  destruct (py_and _ _) as [[|] | e0] eqn:Hguard.
  - destruct (has_buffers_true _ Hguard) as (d & bufs & Hdoc & Hb & Hshape).
    rewrite Hdoc in H. cbn [py_getitem bind] in H. rewrite Hb in H.
    cbn [bind] in H.
    destruct Hshape as [(x & r & ->) | [(c & s & ->) | (p & m & ->)]];
      cbn [py_getitem0 bind] in H.
    + unfold py_and, bind in H.
      destruct x as [| | | |s |l |buffer]; cbn [py_contains py_getitem] in H;
        try (injection H as <-; left; reflexivity).
      * destruct (is_substring "uri" s);
          [injection H as <-; left; reflexivity | discriminate H].
      * destruct (existsb (is_str "uri") l);
          [injection H as <-; left; reflexivity | discriminate H].
      * destruct (dict_get "uri" buffer) as [u |]; [| discriminate H].
        destruct u; cbn [py_startswith] in H;
          try (injection H as <-; right; right; reflexivity).
        destruct (String.prefix "data:" s); discriminate H.
    + unfold py_and, bind in H. cbn [py_contains] in H.
      rewrite uri_not_in_char in H. discriminate H.
    + injection H as <-. right. left. reflexivity.
  - discriminate H.
  - injection H as <-. left. exact (has_buffers_raise _ Hguard).
Qed.

Lemma find_binary_data_raises_witness :
  find_binary_data {| document := JInt 7; sibling_bin := None;
                      listed_bins := [] |} = Raise TypeError
  /\ (TypeError = TypeError \/ TypeError = KeyError
      \/ TypeError = AttributeError).
Proof.
  assert (H : find_binary_data {| document := JInt 7; sibling_bin := None;
                                  listed_bins := [] |} = Raise TypeError)
    by reflexivity.
  exact (conj H (proj2 (proj2 (@find_binary_data_raises _ _ H)))).
Defined.

(* ================================================================== *)
(** ** Sizes and the 32-bit limit *)

Lemma glb_container_len (gltf_bytes data glb : list byte) :
  glb_container gltf_bytes data = Ok glb ->
  len glb = len gltf_bytes + len data + 28
  /\ len gltf_bytes + len data + 28 < 2 ^ 32.
Proof.
  intro H. split.
  - apply glb_container_inv in H.
    destruct H as (h & j & c & -> & Hh & _ & _ & _ & Hj & _ & _ & Hc & _).
    rewrite !len_app. unfold len at 1 2 4. rewrite Hh, Hj, Hc. lia.
  - unfold glb_container, pack_4s_Is, bind in H.
    destruct (pack_Is [2; _]) as [h |] eqn:Hh; [| discriminate].
    apply pack_Is_cons_inv in Hh.
    destruct Hh as [_ (a0 & a1 & a2 & a3 & r1 & _ & _ & Hh)].
    apply pack_Is_cons_inv in Hh. destruct Hh as [Hrange _]. lia.
Qed.

Lemma make_glb_data_len (gltf_bytes glb : list byte)
      (bin : option (list byte)) (emb : bool) :
  make_glb_data gltf_bytes bin emb = Ok glb ->
  len glb = payload_size gltf_bytes bin emb.
Proof.
  unfold make_glb_data, payload_size.
  destruct (external_buffer bin emb) as [data |].
  - intro H. apply glb_container_len in H. tauto.
  - intro H. injection H as <-. reflexivity.
Qed.

Lemma make_b3dm_header_bound (glb_data header : list byte) :
  make_b3dm_header glb_data = Ok header -> 52 + len glb_data < 2 ^ 32.
Proof.
  unfold make_b3dm_header, pack_4s_Is, bind.
  destruct (pack_Is _) as [xs |] eqn:Hxs; [| discriminate].
  intros _.
  apply pack_Is_cons_inv in Hxs.
  destruct Hxs as [_ (a0 & a1 & a2 & a3 & r1 & _ & _ & Hxs)].
  apply pack_Is_cons_inv in Hxs. destruct Hxs as [Hrange _].
  rewrite len_feature_table, len_batch_table in Hrange.
  change (len feature_table_binary) with 0 in Hrange.
  change (len batch_table_binary) with 0 in Hrange.
  lia.
Qed.

Lemma create_b3dm_len_payload (fs : gltf_files) (lod_level : Z)
      (b3dm : list byte) (bin : option (list byte)) (emb : bool) :
  create_b3dm fs lod_level = Ok (b3dm, bin, emb) ->
  len b3dm = 52 + len (payload_section b3dm).
Proof.
  intro H. apply create_b3dm_inv in H.
  destruct H as [_ (gltf_json & glb & header & _ & _ & Hhdr & ->)].
  rewrite (payload_section_b3dm (@create_b3dm_is_b3dm _ _ Hhdr)).
  pose proof (@make_b3dm_header_inv _ _ Hhdr) as (Hlen & _).
  rewrite !len_app, len_feature_table, len_batch_table.
  unfold len at 1. rewrite Hlen. lia.
Qed.

(** The bytes [create_b3dm] returns are 52 bytes (the header and the two
    tables) longer than the payload: 52 plus the length of the
    serialised document without external bytes, and 28 bytes more plus
    the length of the buffer with them. *)
Theorem create_b3dm_length (fs : gltf_files) (lod_level : Z)
        (b3dm : list byte) (bin : option (list byte)) (emb : bool) :
  create_b3dm fs lod_level = Ok (b3dm, bin, emb) ->
  exists gltf_json : json,
    rewrite_document (document fs) bin emb lod_level = Ok gltf_json
    /\ len b3dm = 52 + payload_size (encode_utf8 (dumps gltf_json)) bin emb
    /\ len (payload_section b3dm)
       = payload_size (encode_utf8 (dumps gltf_json)) bin emb.
Proof.
  intro H.
  pose proof (@create_b3dm_payload_inv _ _ _ _ _ H)
    as (_ & gltf_json & Hdoc & Hpay).
  exists gltf_json. split; [exact Hdoc |].
  rewrite (create_b3dm_len_payload _ _ H).
  rewrite (make_glb_data_len _ _ _ Hpay).
  split; reflexivity.
Qed.

Lemma create_b3dm_length_witness :
  create_b3dm embedded_files 1 = Ok (b3dm_of embedded_files 1, None, true)
  /\ exists gltf_json : json,
       rewrite_document (document embedded_files) None true 1 = Ok gltf_json
       /\ len (b3dm_of embedded_files 1)
          = 52 + payload_size (encode_utf8 (dumps gltf_json)) None true
       /\ len (payload_section (b3dm_of embedded_files 1))
          = payload_size (encode_utf8 (dumps gltf_json)) None true.
Proof.
  assert (Hrun : create_b3dm embedded_files 1
                 = Ok (b3dm_of embedded_files 1, None, true))
    by (vm_compute; reflexivity).
  exact (conj Hrun (@create_b3dm_length embedded_files 1 _ None true Hrun)).
Defined.

(** Once the buffer is resolved and the URI rewrite has gone through,
    [create_b3dm] returns exactly when the container (52 bytes plus the
    payload) is shorter than 2^32 bytes; otherwise it raises
    [struct.error]. *)
Theorem create_b3dm_fits_iff (fs : gltf_files) (lod_level : Z)
        (bin : option (list byte)) (emb : bool) (gltf_json : json) :
  find_binary_data fs = Ok (bin, emb) ->
  rewrite_document (document fs) bin emb lod_level = Ok gltf_json ->
  ((exists b3dm : list byte, create_b3dm fs lod_level = Ok (b3dm, bin, emb))
   <-> 52 + payload_size (encode_utf8 (dumps gltf_json)) bin emb < 2 ^ 32)
  /\ (2 ^ 32 <= 52 + payload_size (encode_utf8 (dumps gltf_json)) bin emb ->
      create_b3dm fs lod_level = Raise StructError).
Proof.
  intros Hfind Hdoc.
  assert (Hfwd : forall b3dm, create_b3dm fs lod_level = Ok (b3dm, bin, emb) ->
                 52 + payload_size (encode_utf8 (dumps gltf_json)) bin emb
                 < 2 ^ 32).
  { intros b3dm H. apply create_b3dm_inv in H.
    destruct H as [_ (gltf_json' & glb & header & Hdoc' & Hglb & Hhdr & _)].
    rewrite Hdoc in Hdoc'. injection Hdoc' as <-.
    rewrite <- (make_glb_data_len _ _ _ Hglb).
    exact (make_b3dm_header_bound _ Hhdr). }
  split; [split |].
  - intros [b3dm H]. exact (Hfwd b3dm H).
  - intro Hsize. apply (@create_b3dm_total fs lod_level bin emb gltf_json Hfind Hdoc).
    exact Hsize.
  - intro Hbig.
    destruct (create_b3dm fs lod_level) as [[[b3dm bin'] emb'] | e] eqn:Hrun.
    + pose proof (@create_b3dm_inv _ _ _ _ _ Hrun) as [Hfind' _].
      rewrite Hfind in Hfind'. injection Hfind' as <- <-.
      specialize (Hfwd b3dm eq_refl). lia.
    + f_equal. revert Hrun. unfold create_b3dm.
      rewrite Hfind. cbn [bind]. rewrite Hdoc. cbn [bind].
      destruct (make_glb_data _ _ _) as [glb | e1] eqn:Hglb; cbn [bind].
      * destruct (make_b3dm_header glb) as [header | e2] eqn:Hhdr;
          cbn [bind]; [discriminate |].
        intro H. injection H as <-. exact (make_b3dm_header_raise _ Hhdr).
      * intro H. injection H as <-. exact (make_glb_data_raise _ _ _ Hglb).
Qed.

Lemma create_b3dm_fits_iff_witness :
  find_binary_data embedded_files = Ok (None, true)
  /\ rewrite_document (document embedded_files) None true 1
     = Ok (document embedded_files)
  /\ ((exists b3dm : list byte,
         create_b3dm embedded_files 1 = Ok (b3dm, None, true))
      <-> 52 + payload_size
                 (encode_utf8 (dumps (document embedded_files))) None true
          < 2 ^ 32).
Proof.
  assert (Hfind : find_binary_data embedded_files = Ok (None, true))
    by reflexivity.
  assert (Hdoc : rewrite_document (document embedded_files) None true 1
                 = Ok (document embedded_files)) by reflexivity.
  exact (conj Hfind (conj Hdoc
           (proj1 (@create_b3dm_fits_iff embedded_files 1 None true
                                         _ Hfind Hdoc)))).
Defined.

(** With a non-empty external buffer, the total-length field of the GLB
    header inside the returned bytes is the actual length of the
    payload, and the BIN chunk ends the container. *)
Theorem create_b3dm_glb_length_field (fs : gltf_files) (lod_level : Z)
        (data b3dm : list byte) :
  data <> [] ->
  create_b3dm fs lod_level = Ok (b3dm, Some data, false) ->
  field 2 (payload_section b3dm) = len (payload_section b3dm)
  /\ len b3dm = 52 + field 2 (payload_section b3dm)
  /\ skipn (List.length (payload_section b3dm) - List.length data)
           (payload_section b3dm) = data.
Proof.
  intros Hdata H.
  pose proof (create_b3dm_len_payload _ _ H) as Hb.
  pose proof (@create_b3dm_payload_inv _ _ _ _ _ H)
    as (_ & g & Hdoc & Hglb).
  pose proof (make_glb_data_len _ _ _ Hglb) as Hp.
  unfold make_glb_data in Hglb.
  rewrite (external_buffer_some Hdata) in Hglb.
  pose proof (glb_container_inv _ _ Hglb)
    as (h & j & c & Hpay & Hh & _ & _ & H2 & _).
  unfold payload_size in Hp.
  rewrite (external_buffer_some Hdata) in Hp.
  assert (Hf : field 2 (payload_section b3dm)
               = 28 + len (encode_utf8 (dumps g)) + len data).
  { rewrite Hpay, field_app_l by lia. exact H2. }
  split; [lia |]. split; [lia |].
  rewrite Hpay at 2.
  rewrite !app_assoc.
  replace (List.length (payload_section b3dm) - List.length data)%nat
    with (List.length (((h ++ j) ++ encode_utf8 (dumps g)) ++ c)).
  - rewrite skipn_app, skipn_all, Nat.sub_diag. reflexivity.
  - rewrite Hpay, !length_app. lia.
Qed.

Lemma create_b3dm_glb_length_field_witness :
  repeat x00 512 <> []
  /\ create_b3dm mismatch_files 2
     = Ok (b3dm_of mismatch_files 2, Some (repeat x00 512), false)
  /\ field 2 (payload_section (b3dm_of mismatch_files 2))
     = len (payload_section (b3dm_of mismatch_files 2)).
Proof.
  assert (Hdata : repeat x00 512 <> []) by (simpl; discriminate).
  assert (Hrun : create_b3dm mismatch_files 2
                 = Ok (b3dm_of mismatch_files 2,
                       Some (repeat x00 512), false))
    by (vm_compute; reflexivity).
  exact (conj Hdata (conj Hrun
           (proj1 (@create_b3dm_glb_length_field
                     mismatch_files 2 _ _ Hdata Hrun)))).
Defined.

(* ================================================================== *)
(** ** The URI rewrite on well-formed and malformed documents *)

Lemma dict_get_set_same (k : string) (v : json) (d : list (string * json)) :
  dict_get k (dict_set k v d) = Some v.
Proof.
  induction d as [| [k0 v0] d IH]; cbn [dict_set dict_get].
  - rewrite String.eqb_refl. reflexivity.
  - destruct (String.eqb k k0) eqn:E; cbn [dict_get]; rewrite E.
    + reflexivity.
    + exact IH.
Qed.

Lemma dict_get_set_other (k k' : string) (v : json)
      (d : list (string * json)) :
  String.eqb k' k = false ->
  dict_get k' (dict_set k v d) = dict_get k' d.
Proof.
  intro Hk.
  induction d as [| [k0 v0] d IH]; cbn [dict_set dict_get].
  - rewrite Hk. reflexivity.
  - destruct (String.eqb k k0) eqn:E; cbn [dict_get].
    + apply String.eqb_eq in E. subst k0. rewrite Hk. reflexivity.
    + rewrite IH. reflexivity.
Qed.

Lemma len_positive (xs : list json) (x : json) :
  (0 <? Z.of_nat (List.length (x :: xs)))%Z = true.
Proof. apply Z.ltb_lt. cbn [List.length]. lia. Qed.

(** With a non-empty external buffer and a document whose [buffers]
    list starts with an object, the rewrite goes through: the document
    serialised carries [buffer_lod{level}.bin] as the [uri] of its first
    buffer, and the declared [byteLength] is left as it was. *)
Theorem rewrite_document_sets_uri (d buffer : list (string * json))
        (rest : list json) (data : list byte) (lod_level : Z) :
  dict_get "buffers" d = Some (JArr (JObj buffer :: rest)) ->
  data <> [] ->
  exists doc' : json,
    rewrite_document (JObj d) (Some data) false lod_level = Ok doc'
    /\ first_buffer_uri doc' = Ok (JStr (buffer_uri lod_level))
    /\ declared_byte_length doc' = declared_byte_length (JObj d).
Proof.
  intros Hb Hdata.
  destruct data as [| b0 data]; [contradiction |].
  unfold rewrite_document, py_and, bind, set_first_buffer_uri, bind.
  cbn [external_buffer py_contains py_getitem].
  rewrite Hb. cbn [py_len]. rewrite len_positive.
  cbn [py_getitem0 py_setitem].
  eexists. split; [reflexivity |].
  unfold first_buffer_uri, declared_byte_length, bind.
  cbn [py_getitem]. rewrite dict_get_set_same, Hb.
  cbn [py_getitem0 py_getitem].
  rewrite dict_get_set_same.
  rewrite dict_get_set_other by reflexivity.
  split; reflexivity.
Qed.

Lemma rewrite_document_sets_uri_witness :
  dict_get "buffers"
           [ ("asset", JObj [("version", JStr "2.0")]);
             ("buffers", JArr [ JObj [ ("byteLength", JInt 1024);
                                       ("uri", JStr "model.bin") ] ]) ]
  = Some (JArr [ JObj [ ("byteLength", JInt 1024);
                        ("uri", JStr "model.bin") ] ])
  /\ repeat x00 512 <> []
  /\ exists doc' : json,
       rewrite_document mismatch_document (Some (repeat x00 512)) false 4
       = Ok doc'
       /\ first_buffer_uri doc' = Ok (JStr (buffer_uri 4))
       /\ declared_byte_length doc' = declared_byte_length mismatch_document.
Proof.
  assert (Hb : dict_get "buffers"
                 [ ("asset", JObj [("version", JStr "2.0")]);
                   ("buffers", JArr [ JObj [ ("byteLength", JInt 1024);
                                             ("uri", JStr "model.bin") ] ]) ]
               = Some (JArr [ JObj [ ("byteLength", JInt 1024);
                                     ("uri", JStr "model.bin") ] ]))
    by reflexivity.
  assert (Hdata : repeat x00 512 <> []) by (simpl; discriminate).
  exact (conj Hb (conj Hdata
           (@rewrite_document_sets_uri _ _ _ _ 4 Hb Hdata))).
Defined.

(** With a non-empty external buffer and a document whose [buffers]
    list starts with something that is not an object, the assignment of
    the [uri] raises [TypeError] and [create_b3dm] returns nothing. *)
Theorem create_b3dm_first_buffer_not_object (fs : gltf_files)
        (lod_level : Z) (data : list byte) (d : list (string * json))
        (x : json) (rest : list json) :
  find_binary_data fs = Ok (Some data, false) ->
  data <> [] ->
  document fs = JObj d ->
  dict_get "buffers" d = Some (JArr (x :: rest)) ->
  (forall m : list (string * json), x <> JObj m) ->
  create_b3dm fs lod_level = Raise TypeError.
Proof.
  intros Hfind Hdata Hdoc Hb Hx.
  destruct data as [| b0 data]; [contradiction |].
  unfold create_b3dm. rewrite Hfind, Hdoc. cbn [bind].
  unfold rewrite_document, py_and, bind, set_first_buffer_uri, bind.
  cbn [external_buffer py_contains py_getitem].
  rewrite Hb. cbn [py_len]. rewrite len_positive.
  cbn [py_getitem0].
  destruct x; try reflexivity.
  exfalso. exact (Hx _ eq_refl).
Qed.

Lemma create_b3dm_first_buffer_not_object_witness :
  create_b3dm {| document := JObj [("buffers", JArr [JStr "model.bin"])];
                 sibling_bin := Some [x01];
                 listed_bins := [] |} 0
  = Raise TypeError.
Proof.
  apply (@create_b3dm_first_buffer_not_object
           _ 0 [x01] [("buffers", JArr [JStr "model.bin"])]
           (JStr "model.bin") []).
  - reflexivity.
  - discriminate.
  - reflexivity.
  - reflexivity.
  - intros m H. discriminate H.
Defined.

(** With an external buffer and a document that declares no buffer (no
    [buffers] member, or an empty [buffers] list), nothing is rewritten
    and nothing is raised: the document is serialised as it is. *)
Theorem rewrite_document_no_buffers (d : list (string * json))
        (bin : option (list byte)) (emb : bool) (lod_level : Z) :
  dict_get "buffers" d = None \/ dict_get "buffers" d = Some (JArr []) ->
  rewrite_document (JObj d) bin emb lod_level = Ok (JObj d).
Proof.
  intro H. unfold rewrite_document, py_and, bind.
  destruct (external_buffer bin emb); [| reflexivity].
  cbn [py_contains py_getitem].
  destruct H as [-> | ->]; reflexivity.
Qed.

Lemma rewrite_document_no_buffers_witness :
  rewrite_document (JObj [("asset", JObj [])]) (Some [x01]) false 3
  = Ok (JObj [("asset", JObj [])]).
Proof.
  apply rewrite_document_no_buffers. left. reflexivity.
Defined.

(* ================================================================== *)
(** ** The padding of the tables *)

Lemma string_length_app (s t : string) :
  String.length (s ++ t) = (String.length s + String.length t)%nat.
Proof.
  induction s as [| c s IH]; cbn [append String.length]; [reflexivity |].
  rewrite IH. reflexivity.
Qed.

Lemma spaces_length (n : nat) : String.length (spaces n) = n.
Proof.
  induction n as [| n IH]; cbn [spaces String.length]; [reflexivity |].
  rewrite IH. reflexivity.
Qed.

Lemma encode_utf8_app (s t : string) :
  encode_utf8 (s ++ t) = (encode_utf8 s ++ encode_utf8 t)%list.
Proof.
  induction s as [| c s IH]; cbn [append encode_utf8]; [reflexivity |].
  rewrite IH, app_assoc. reflexivity.
Qed.

Lemma encode_utf8_ascii_length (s : string) :
  is_ascii s = true ->
  List.length (encode_utf8 s) = String.length s.
Proof.
  unfold is_ascii.
  induction s as [| c s IH];
    cbn [list_ascii_of_string forallb encode_utf8 String.length];
    [reflexivity |].
  intro H. apply andb_prop in H. destruct H as [Hc Hs].
  unfold utf8_char. rewrite Hc. cbn [app List.length].
  rewrite (IH Hs). reflexivity.
Qed.

Lemma spaces_ascii (n : nat) : is_ascii (spaces n) = true.
Proof.
  unfold is_ascii.
  induction n as [| n IH]; cbn [spaces list_ascii_of_string forallb];
    [reflexivity |].
  exact IH.
Qed.

Lemma append_empty_r (s : string) : s ++ "" = s.
Proof.
  induction s as [| c s IH]; cbn [append]; [reflexivity |].
  rewrite IH. reflexivity.
Qed.

Lemma is_ascii_app (s t : string) :
  is_ascii s = true -> is_ascii t = true -> is_ascii (s ++ t) = true.
Proof.
  unfold is_ascii. intros Hs Ht.
  induction s as [| c s IH];
    cbn [append list_ascii_of_string forallb] in *; [exact Ht |].
  apply andb_prop in Hs. destruct Hs as [Hc Hs].
  rewrite Hc. exact (IH Hs).
Qed.

(** The padding [s + ' ' * ((4 - len(s) % 4) % 4)] appends at most three
    spaces, none when the length is already a multiple of 4, and brings
    the length to a multiple of 4; for a string of ASCII characters the
    encoded byte length is that multiple of 4 as well. *)
Theorem pad4_aligned (s : string) :
  (exists k : nat, (k < 4)%nat /\ pad4 s = s ++ spaces k)
  /\ Z.of_nat (String.length (pad4 s)) mod 4 = 0
  /\ (Z.of_nat (String.length s) mod 4 = 0 -> pad4 s = s)
  /\ (is_ascii s = true -> len (encode_utf8 (pad4 s)) mod 4 = 0).
Proof.
  set (n := Z.of_nat (String.length s)).
  assert (Hk : 0 <= (4 - n mod 4) mod 4 < 4) by (apply Z.mod_pos_bound; lia).
  assert (Hlen : Z.of_nat (String.length (pad4 s)) mod 4 = 0).
  { unfold pad4. rewrite string_length_app, spaces_length.
    fold n. rewrite Nat2Z.inj_add, Z2Nat.id by lia. fold n.
    pose proof (Z.mod_pos_bound n 4 ltac:(lia)) as Hn.
    Z.to_euclidean_division_equations. lia. }
  split; [| split; [exact Hlen | split]].
  - exists (Z.to_nat ((4 - n mod 4) mod 4)). split; [lia | reflexivity].
  - intro H0. unfold pad4. fold n. rewrite H0.
    change (spaces (Z.to_nat ((4 - 0) mod 4))) with EmptyString.
    apply append_empty_r.
  - intro Ha. unfold len.
    rewrite encode_utf8_ascii_length; [exact Hlen |].
    unfold pad4. apply is_ascii_app; [exact Ha | apply spaces_ascii].
Qed.

Lemma pad4_aligned_witness :
  is_ascii (dumps batch_table_json) = true
  /\ len (encode_utf8 (pad4 (dumps batch_table_json))) mod 4 = 0.
Proof.
  assert (Ha : is_ascii (dumps batch_table_json) = true) by reflexivity.
  exact (conj Ha
           (proj2 (proj2 (proj2 (pad4_aligned (dumps batch_table_json))))
                  Ha)).
Defined.

(* ================================================================== *)
(** ** The list of LOD models *)

Lemma create_b3dm_nonempty (fs : gltf_files) (lod_level : Z)
      (b3dm : list byte) (bin : option (list byte)) (emb : bool) :
  create_b3dm fs lod_level = Ok (b3dm, bin, emb) -> b3dm <> [].
Proof.
  intro H. apply create_b3dm_inv in H.
  destruct H as [_ (gltf_json & glb & header & _ & _ & Hhdr & ->)].
  pose proof (@make_b3dm_header_inv _ _ Hhdr) as (Hlen & _).
  destruct header; [discriminate Hlen | discriminate].
Qed.

Lemma lod_models_from_ok (fs : gltf_files) (count : nat) :
  forall (i : Z) (lods : list lod_model),
    lod_models_from fs i count = Ok lods ->
    map level lods = py_range i count
    /\ Forall (fun lod =>
                 create_b3dm fs (level lod)
                 = Ok (b3dm_data lod, binary_data lod, is_embedded lod))
              lods.
Proof.
  induction count as [| count IH]; intros i lods; cbn [lod_models_from].
  - intro H. injection H as <-. split; [reflexivity | constructor].
  - unfold bind.
    destruct (create_b3dm fs i) as [[[b3dm bin] emb] |] eqn:Hrun;
      [| discriminate].
    destruct (lod_models_from fs (i + 1) count) as [rest |] eqn:Hrest;
      [| discriminate].
    destruct (IH _ _ Hrest) as [Hlevels Hall].
    pose proof (create_b3dm_nonempty _ _ Hrun) as Hne.
    destruct b3dm as [| b0 b3dm]; [contradiction |].
    intro H. injection H as <-.
    cbn [map py_range level]. split.
    + rewrite Hlevels. reflexivity.
    + constructor; [exact Hrun | exact Hall].
Qed.

(** When [create_lod_models] returns, the list holds one entry per
    level of [range(lod_levels)], in order; no level is skipped (the
    packaged bytes are never empty); each entry carries what
    [create_b3dm] returns for its level, and the buffer data and flag
    [find_binary_data] reported. *)
Theorem create_lod_models_levels (fs : gltf_files) (lod_levels : Z)
        (lods : list lod_model) :
  create_lod_models fs lod_levels = Ok lods ->
  map level lods = py_range 0 (Z.to_nat lod_levels)
  /\ List.length lods = Z.to_nat lod_levels
  /\ Forall (fun lod =>
               create_b3dm fs (level lod)
               = Ok (b3dm_data lod, binary_data lod, is_embedded lod)
               /\ find_binary_data fs
                  = Ok (binary_data lod, is_embedded lod)
               /\ b3dm_data lod <> [])
            lods.
Proof.
  unfold create_lod_models. intro H.
  destruct (lod_models_from_ok _ _ _ H) as [Hlevels Hall].
  split; [exact Hlevels |]. split.
  - rewrite <- (length_map level), Hlevels.
    generalize 0. generalize (Z.to_nat lod_levels).
    induction n as [| n IH]; intro z; cbn [py_range List.length];
      [reflexivity |].
    rewrite IH. reflexivity.
  - apply Forall_impl with (2 := Hall).
    intros lod Hrun. split; [exact Hrun |]. split.
    + exact (proj1 (@create_b3dm_inv _ _ _ _ _ Hrun)).
    + exact (create_b3dm_nonempty _ _ Hrun).
Qed.

Lemma create_lod_models_levels_witness :
  (exists lods : list lod_model,
     create_lod_models embedded_files 3 = Ok lods
     /\ map level lods = [0; 1; 2]).
Proof.
  destruct (create_lod_models embedded_files 3) as [lods |] eqn:H.
  - exists lods. split; [reflexivity |].
    exact (proj1 (@create_lod_models_levels embedded_files 3 lods H)).
  - vm_compute in H. discriminate H.
Defined.

(** [create_lod_models] returns the empty list exactly when
    [lod_levels] is not positive: with at least one level it returns a
    non-empty list or raises. *)
Theorem create_lod_models_empty_iff (fs : gltf_files) (lod_levels : Z) :
  create_lod_models fs lod_levels = Ok [] <-> lod_levels <= 0.
Proof.
  split.
  - intro H.
    pose proof (lod_models_from_ok _ _ _ H) as [Hlevels _].
    cbn [map] in Hlevels.
    destruct (Z.to_nat lod_levels) eqn:E; [lia | discriminate Hlevels].
  - intro H. unfold create_lod_models.
    replace (Z.to_nat lod_levels) with 0%nat by lia. reflexivity.
Qed.

Lemma lod_models_from_raise (fs : gltf_files) (e : exn) (count : nat) :
  forall i : Z,
    lod_models_from fs i count = Raise e ->
    exists k : nat, (k < count)%nat
                    /\ create_b3dm fs (i + Z.of_nat k) = Raise e
                    /\ forall j : nat, (j < k)%nat ->
                         exists r, create_b3dm fs (i + Z.of_nat j) = Ok r.
Proof.
  induction count as [| count IH]; intro i; cbn [lod_models_from].
  - discriminate.
  - unfold bind.
    destruct (create_b3dm fs i) as [[[b3dm bin] emb] | e0] eqn:Hrun.
    + destruct (lod_models_from fs (i + 1) count) as [rest | e1] eqn:Hrest.
      * destruct b3dm; discriminate.
      * intro H. injection H as <-.
        destruct (IH _ Hrest) as (k & Hk & Hfail & Hbefore).
        exists (S k). split; [lia |]. split.
        -- replace (i + Z.of_nat (S k)) with (i + 1 + Z.of_nat k) by lia.
           exact Hfail.
        -- intros j Hj. destruct j as [| j].
           ++ rewrite Z.add_0_r. eexists. exact Hrun.
           ++ replace (i + Z.of_nat (S j)) with (i + 1 + Z.of_nat j) by lia.
              apply Hbefore. lia.
    + intro H. injection H as <-.
      exists 0%nat. split; [lia |]. split.
      * rewrite Z.add_0_r. exact Hrun.
      * intros j Hj. lia.
Qed.

(** When [create_lod_models] raises, the exception is the one
    [create_b3dm] raises at the first level that fails, every level
    below it having been packaged. *)
Theorem create_lod_models_raise (fs : gltf_files) (lod_levels : Z)
        (e : exn) :
  create_lod_models fs lod_levels = Raise e ->
  exists k : Z,
    0 <= k < lod_levels
    /\ create_b3dm fs k = Raise e
    /\ forall j : Z, 0 <= j < k -> exists r, create_b3dm fs j = Ok r.
Proof.
  unfold create_lod_models. intro H.
  destruct (lod_models_from_raise _ _ _ H) as (k & Hk & Hfail & Hbefore).
  exists (Z.of_nat k). split; [lia |]. split; [exact Hfail |].
  intros j Hj.
  replace j with (0 + Z.of_nat (Z.to_nat j)) by lia.
  apply Hbefore. lia.
Qed.

Lemma create_lod_models_raise_witness :
  create_lod_models {| document := JInt 7; sibling_bin := None;
                       listed_bins := [] |} 2 = Raise TypeError
  /\ exists k : Z,
       0 <= k < 2
       /\ create_b3dm {| document := JInt 7; sibling_bin := None;
                         listed_bins := [] |} k = Raise TypeError.
Proof.
  assert (H : create_lod_models {| document := JInt 7; sibling_bin := None;
                                   listed_bins := [] |} 2 = Raise TypeError)
    by reflexivity.
  split; [exact H |].
  destruct (@create_lod_models_raise _ 2 TypeError H) as (k & Hk & Hf & _).
  exists k. split; [exact Hk | exact Hf].
Defined.

Lemma create_b3dm_no_external_eq (fs : gltf_files) (emb : bool) (i j : Z) :
  find_binary_data fs = Ok (None, emb) ->
  create_b3dm fs i = create_b3dm fs j.
Proof.
  intro Hfind. unfold create_b3dm. rewrite Hfind. cbn [bind].
  rewrite !rewrite_document_no_external by reflexivity. reflexivity.
Qed.

(** Without external buffer bytes, all the entries [create_lod_models]
    returns carry the same packaged bytes: the tiles written for the
    levels are byte-for-byte copies of one another. *)
Theorem create_lod_models_same_bytes (fs : gltf_files) (lod_levels : Z)
        (emb : bool) (lods : list lod_model) :
  find_binary_data fs = Ok (None, emb) ->
  create_lod_models fs lod_levels = Ok lods ->
  forall lod1 lod2 : lod_model,
    In lod1 lods -> In lod2 lods -> b3dm_data lod1 = b3dm_data lod2.
Proof.
  intros Hfind H lod1 lod2 H1 H2.
  destruct (lod_models_from_ok _ _ _ H) as [_ Hall].
  rewrite Forall_forall in Hall.
  pose proof (Hall _ H1) as R1. pose proof (Hall _ H2) as R2.
  rewrite (@create_b3dm_no_external_eq fs emb (level lod1) (level lod2) Hfind) in R1.
  rewrite R1 in R2. injection R2 as E _ _. exact E.
Qed.

Lemma create_lod_models_same_bytes_witness :
  find_binary_data embedded_files = Ok (None, true)
  /\ exists lods : list lod_model,
       create_lod_models embedded_files 2 = Ok lods
       /\ forall lod1 lod2 : lod_model,
            In lod1 lods -> In lod2 lods -> b3dm_data lod1 = b3dm_data lod2.
Proof.
  assert (Hfind : find_binary_data embedded_files = Ok (None, true))
    by reflexivity.
  split; [exact Hfind |].
  destruct (create_lod_models embedded_files 2) as [lods |] eqn:H.
  - exists lods. split; [reflexivity |].
    exact (@create_lod_models_same_bytes embedded_files 2 true lods Hfind H).
  - vm_compute in H. discriminate H.
Defined.

(* ================================================================== *)
(** ** The tileset for an arbitrary list of tiles *)

Lemma chain_of_models_snd (lods : list lod_model) :
  map snd (chain_of_models lods)
  = map (fun lod => Some (tile_uri (level lod))) lods.
Proof.
  induction lods as [| lod rest IH]; cbn [chain_of_models map snd];
    [reflexivity |].
  rewrite IH. reflexivity.
Qed.


Lemma create_tileset_json_ok_inv (self : FBX2Tiles) (lods : list lod_model)
      (t : tileset) :
  create_tileset_json self lods = Ok t ->
  geometricError (root t) = 100%Q
  /\ content_uri (root t) = None
  /\ tileset_geometricError t = 200%Q
  /\ single_chain (root t)
  /\ descendant_chain (root t) = chain_of_models lods.
Proof.
  intro H.
  destruct (create_tileset_json_chain self lods) as (t' & Ht' & Hrest).
  rewrite H in Ht'. injection Ht' as <-. exact Hrest.
Qed.






Lemma chain_lod_tiles_attributes (bv : bounding_volume)
      (lods : list lod_model) :
  forall (i : nat) (prev_tile : option tile),
    match prev_tile with
    | Some p =>
        Forall (fun c : tile =>
                  boundingVolume c = bv /\ refine c = "REPLACE"
                  /\ transform c = None /\ content_uri c <> None)
               (descend_tiles p)
    | None => True
    end ->
    match chain_lod_tiles bv i lods prev_tile with
    | Some t =>
        Forall (fun c : tile =>
                  boundingVolume c = bv /\ refine c = "REPLACE"
                  /\ transform c = None /\ content_uri c <> None)
               (descend_tiles t)
    | None => True
    end.
Proof.
  induction lods as [| lod rest IH]; intros i prev_tile Hprev.
  - exact Hprev.
  - cbn [chain_lod_tiles]. apply IH.
    cbn [descend_tiles children].
    destruct prev_tile as [p |].
    + constructor; [| exact Hprev].
      cbn [boundingVolume refine transform content_uri].
      repeat split. discriminate.
    + constructor; [| constructor].
      cbn [boundingVolume refine transform content_uri].
      repeat split. discriminate.
Qed.

(** In every document [create_tileset_json] returns, the root carries
    the transform of the converter and no content, and every tile of the
    chain below it carries the root's bounding volume, the refinement
    [REPLACE], a content URI and no transform. *)
Theorem create_tileset_json_attributes (self : FBX2Tiles)
        (lods : list lod_model) (t : tileset) :
  create_tileset_json self lods = Ok t ->
  transform (root t) = Some (get_transform_matrix self)
  /\ content_uri (root t) = None
  /\ refine (root t) = "REPLACE"
  /\ boundingVolume (root t)
     = calculate_bounding_volume (get_transform_matrix self)
  /\ Forall (fun c => boundingVolume c = boundingVolume (root t)
                      /\ refine c = "REPLACE"
                      /\ transform c = None
                      /\ content_uri c <> None)
            (tl (descend_tiles (root t))).
Proof.
  unfold create_tileset_json. intro H. injection H as <-.
  cbn [root transform content_uri refine boundingVolume].
  repeat (split; [reflexivity |]).
  cbn [descend_tiles children tl].
  pose proof (chain_lod_tiles_attributes
                (calculate_bounding_volume (get_transform_matrix self))
                (rev lods) 0 None I) as Hall.
  destruct (chain_lod_tiles _ 0 (rev lods) None); [exact Hall | constructor].
Qed.

Lemma create_tileset_json_attributes_witness :
  exists t : tileset,
    create_tileset_json origin [lod_entry [] None false 0] = Ok t
    /\ content_uri (root t) = None.
Proof.
  eexists. split; [reflexivity |].
  exact (proj1 (proj2 (@create_tileset_json_attributes
                         origin [lod_entry [] None false 0] _ eq_refl))).
Defined.

(* ================================================================== *)
(** ** File names *)

Lemma to_int_not_nil (z : Z) :
  Z.to_int z <> Decimal.Pos Decimal.Nil
  /\ Z.to_int z <> Decimal.Neg Decimal.Nil.
Proof.
  split; intro H; pose proof (f_equal Z.of_int H) as H';
    rewrite DecimalZ.of_to in H'; cbn in H'; subst z;
    vm_compute in H; discriminate H.
Qed.

Lemma str_of_int_inj (i j : Z) : str_of_int i = str_of_int j -> i = j.
Proof.
  unfold str_of_int. intro H.
  apply (f_equal NilZero.int_of_string) in H.
  destruct (to_int_not_nil i) as [Hi1 Hi2].
  destruct (to_int_not_nil j) as [Hj1 Hj2].
  rewrite !NilZero.isi in H by assumption.
  injection H as H. apply DecimalZ.to_int_inj. exact H.
Qed.

Lemma append_inj_l (s t1 t2 : string) : s ++ t1 = s ++ t2 -> t1 = t2.
Proof.
  induction s as [| c s IH]; cbn [append]; intro H; [exact H |].
  injection H as H. exact (IH H).
Qed.

Lemma append_inj_r (t s1 : string) :
  forall s2 : string, s1 ++ t = s2 ++ t -> s1 = s2.
Proof.
  induction s1 as [| c s1 IH]; intros [| c2 s2] H; cbn [append] in H.
  - reflexivity.
  - apply (f_equal String.length) in H.
    cbn [String.length] in H. rewrite string_length_app in H. lia.
  - apply (f_equal String.length) in H.
    cbn [String.length] in H. rewrite string_length_app in H. lia.
  - injection H as -> H. f_equal. exact (IH _ H).
Qed.

(** The file names are one-to-one in the level: two levels share the
    tile name [tiles/model_lod{level}.b3dm], or the buffer name
    [buffer_lod{level}.bin], only if they are the same level. *)
Theorem lod_file_names_distinct (i j : Z) :
  (tile_uri i = tile_uri j <-> i = j)
  /\ (buffer_uri i = buffer_uri j <-> i = j).
Proof.
  split; split; intro H; try (subst j; reflexivity).
  - unfold tile_uri in H.
    apply append_inj_l, append_inj_r in H. exact (str_of_int_inj _ _ H).
  - unfold buffer_uri in H.
    apply append_inj_l, append_inj_r in H. exact (str_of_int_inj _ _ H).
Qed.

(* ================================================================== *)
(** ** The conversion stage *)

Lemma tile_files_saved (lods : list lod_model) (t : tileset) :
  tile_files (flat_map save_lod lods ++ [TilesetFile t])
  = map (fun lod => (level lod, b3dm_data lod)) lods.
Proof.
  unfold tile_files. rewrite flat_map_app. cbn [flat_map app].
  rewrite app_nil_r.
  induction lods as [| lod rest IH]; cbn [flat_map map]; [reflexivity |].
  rewrite flat_map_app, IH. unfold save_lod.
  destruct (external_buffer _ _); reflexivity.
Qed.

Lemma buffer_files_saved (lods : list lod_model) (t : tileset) :
  buffer_files (flat_map save_lod lods ++ [TilesetFile t])
  = flat_map (fun lod =>
                match external_buffer (binary_data lod) (is_embedded lod) with
                | Some data => [(level lod, data)]
                | None => []
                end) lods.
Proof.
  unfold buffer_files. rewrite flat_map_app. cbn [flat_map app].
  rewrite app_nil_r.
  induction lods as [| lod rest IH]; cbn [flat_map]; [reflexivity |].
  rewrite flat_map_app, IH. unfold save_lod.
  destruct (external_buffer _ _); reflexivity.
Qed.

Lemma tileset_files_saved (lods : list lod_model) (t : tileset) :
  tileset_files (flat_map save_lod lods ++ [TilesetFile t]) = [t].
Proof.
  unfold tileset_files. rewrite flat_map_app. cbn [flat_map app].
  replace (flat_map _ (flat_map save_lod lods)) with (@nil tileset);
    [reflexivity |].
  induction lods as [| lod rest IH]; cbn [flat_map]; [reflexivity |].
  rewrite flat_map_app, <- IH. unfold save_lod.
  destruct (external_buffer _ _); reflexivity.
Qed.

(** What a successful conversion went through. *)
Lemma convert_gltf_to_3dtiles_inv (self : FBX2Tiles) (fs : gltf_files)
      (lod_levels : Z) (files : list output_file) :
  convert_gltf_to_3dtiles self fs lod_levels = (true, files) ->
  exists (lods : list lod_model) (t : tileset),
    create_lod_models fs lod_levels = Ok lods
    /\ lods <> []
    /\ create_tileset_json self lods = Ok t
    /\ files = (flat_map save_lod lods ++ [TilesetFile t])%list.
Proof.
  unfold convert_gltf_to_3dtiles.
  destruct (create_lod_models fs lod_levels) as [[| lod rest] |];
    try discriminate.
  destruct (create_tileset_json self (lod :: rest)) as [t |] eqn:Ht;
    [| discriminate].
  intro H. injection H as <-.
  exists (lod :: rest), t. repeat split; try assumption. discriminate.
Qed.


(** After a successful conversion, the tile files written are those of
    the levels [0 .. lod_levels - 1], in this order, each holding the
    bytes [create_b3dm] returns for its level; exactly one tileset
    document is written, and it is the last file written. *)
Theorem convert_gltf_to_3dtiles_tiles (self : FBX2Tiles) (fs : gltf_files)
        (lod_levels : Z) (files : list output_file) :
  convert_gltf_to_3dtiles self fs lod_levels = (true, files) ->
  0 < lod_levels
  /\ map fst (tile_files files) = py_range 0 (Z.to_nat lod_levels)
  /\ Forall (fun f => exists bin emb,
                        create_b3dm fs (fst f) = Ok (snd f, bin, emb))
            (tile_files files)
  /\ exists t : tileset,
       tileset_files files = [t] /\ last files (TileFile 0 []) = TilesetFile t.
Proof.
  intro H. apply convert_gltf_to_3dtiles_inv in H.
  destruct H as (lods & t & Hlods & Hne & Ht & ->).
  pose proof (lod_models_from_ok _ _ _ Hlods) as [Hlevels Hall].
  rewrite tile_files_saved, tileset_files_saved.
  split; [| split; [| split]].
  - destruct (Z.to_nat lod_levels) eqn:E; [| lia].
    cbn [py_range] in Hlevels. destruct lods; [contradiction | discriminate].
  - rewrite map_map. cbn [fst]. exact Hlevels.
  - rewrite Forall_map. apply Forall_impl with (2 := Hall).
    intros lod Hrun. cbn [fst snd]. eauto.
  - exists t. split; [reflexivity |]. apply last_last.
Qed.

(** After a successful conversion, a buffer file is written for every
    level when [find_binary_data] reported non-empty external bytes,
    each holding those bytes, and no buffer file is written otherwise
    (embedded, absent or empty buffer). *)
Theorem convert_gltf_to_3dtiles_buffers (self : FBX2Tiles) (fs : gltf_files)
        (lod_levels : Z) (files : list output_file)
        (bin : option (list byte)) (emb : bool) :
  convert_gltf_to_3dtiles self fs lod_levels = (true, files) ->
  find_binary_data fs = Ok (bin, emb) ->
  buffer_files files
  = match external_buffer bin emb with
    | Some data => map (fun l => (l, data)) (py_range 0 (Z.to_nat lod_levels))
    | None => []
    end.
Proof.
  intros H Hfind. apply convert_gltf_to_3dtiles_inv in H.
  destruct H as (lods & t & Hlods & _ & _ & ->).
  pose proof (lod_models_from_ok _ _ _ Hlods) as [Hlevels Hall].
  rewrite buffer_files_saved, <- Hlevels. clear Hlevels Hlods.
  induction Hall as [| lod rest Hrun _ IH]; cbn [flat_map map].
  - destruct (external_buffer bin emb); reflexivity.
  - pose proof (proj1 (@create_b3dm_inv _ _ _ _ _ Hrun)) as Hf.
    rewrite Hfind in Hf. injection Hf as <- <-.
    rewrite IH. destruct (external_buffer bin emb); reflexivity.
Qed.

(** After a successful conversion, the content URIs of the chain of the
    tileset written are the names of the tile files written, one for
    one and in the same order: the tileset refers to no tile that was
    not written, and every tile written is referred to. *)
Theorem convert_gltf_to_3dtiles_references (self : FBX2Tiles)
        (fs : gltf_files) (lod_levels : Z) (files : list output_file) :
  convert_gltf_to_3dtiles self fs lod_levels = (true, files) ->
  exists t : tileset,
    tileset_files files = [t]
    /\ map snd (descendant_chain (root t))
       = map (fun f => Some (tile_uri (fst f))) (tile_files files).
Proof.
  intro H. apply convert_gltf_to_3dtiles_inv in H.
  destruct H as (lods & t & _ & _ & Ht & ->).
  exists t. split; [apply tileset_files_saved |].
  rewrite tile_files_saved, map_map. cbn [fst].
  destruct (@create_tileset_json_ok_inv _ _ _ Ht) as (_ & _ & _ & _ & Hchain).
  rewrite Hchain. apply chain_of_models_snd.
Qed.

Lemma convert_gltf_to_3dtiles_tiles_witness :
  convert_gltf_to_3dtiles origin embedded_files 2
  = (true, written_files origin embedded_files 2)
  /\ map fst (tile_files (written_files origin embedded_files 2)) = [0; 1].
Proof.
  assert (H : convert_gltf_to_3dtiles origin embedded_files 2
              = (true, written_files origin embedded_files 2))
    by reflexivity.
  exact (conj H (proj1 (proj2 (@convert_gltf_to_3dtiles_tiles
                                 origin embedded_files 2 _ H)))).
Defined.

Lemma convert_gltf_to_3dtiles_buffers_witness :
  convert_gltf_to_3dtiles origin mismatch_files 2
  = (true, written_files origin mismatch_files 2)
  /\ find_binary_data mismatch_files = Ok (Some (repeat x00 512), false)
  /\ buffer_files (written_files origin mismatch_files 2)
     = [(0, repeat x00 512); (1, repeat x00 512)].
Proof.
  assert (H : convert_gltf_to_3dtiles origin mismatch_files 2
              = (true, written_files origin mismatch_files 2))
    by reflexivity.
  assert (Hfind : find_binary_data mismatch_files
                  = Ok (Some (repeat x00 512), false)) by reflexivity.
  exact (conj H (conj Hfind
           (@convert_gltf_to_3dtiles_buffers
              origin mismatch_files 2 _ _ _ H Hfind))).
Defined.

Lemma convert_gltf_to_3dtiles_references_witness :
  convert_gltf_to_3dtiles origin embedded_files 2
  = (true, written_files origin embedded_files 2)
  /\ exists t : tileset,
       tileset_files (written_files origin embedded_files 2) = [t]
       /\ map snd (descendant_chain (root t))
          = map (fun f => Some (tile_uri (fst f)))
                (tile_files (written_files origin embedded_files 2)).
Proof.
  assert (H : convert_gltf_to_3dtiles origin embedded_files 2
              = (true, written_files origin embedded_files 2))
    by reflexivity.
  exact (conj H (@convert_gltf_to_3dtiles_references
                   origin embedded_files 2 _ H)).
Defined.

(* ================================================================== *)
(** ** The geodetic transform, over the reals *)

Lemma wgs84_f_bounds : (0 < wgs84_f < 1)%R.
Proof. unfold wgs84_f. split; lra. Qed.

Lemma wgs84_e_squared_bounds : (0 < wgs84_e_squared < 1)%R.
Proof.
  pose proof wgs84_f_bounds as [Hf0 Hf1]. unfold wgs84_e_squared.
  split; nra.
Qed.

Lemma sin_sq_le_1 (x : R) : (0 <= sin x * sin x <= 1)%R.
Proof.
  pose proof (SIN_bound x) as [Hl Hu]. split; nra.
Qed.

Lemma sin_cos_sq (x : R) : (sin x * sin x + cos x * cos x = 1)%R.
Proof. exact (sin2_cos2 x). Qed.

(** At height 0, the point [wgs84_to_ecef] returns lies on the WGS84
    ellipsoid of semi-major axis [a] and squared eccentricity [e2]:
    [x^2 + y^2 + z^2 / (1 - e2) = a^2], for every longitude and
    latitude (the poles included). *)
Theorem wgs84_to_ecef_on_ellipsoid (lon lat : R) :
  let '(x, y, z) := wgs84_to_ecef lon lat 0 in
  (x * x + y * y + z * z / (1 - wgs84_e_squared) = wgs84_a * wgs84_a)%R.
Proof.
  unfold wgs84_to_ecef.
  fold wgs84_f. fold wgs84_e_squared. fold wgs84_a.
  pose proof wgs84_e_squared_bounds as [He0 He1].
  set (s := sin (radians lat)). set (c := cos (radians lat)).
  set (sl := sin (radians lon)). set (cl := cos (radians lon)).
  pose proof (sin_sq_le_1 (radians lat)) as [Hs0 Hs1]. fold s in Hs0, Hs1.
  pose proof (sin_cos_sq (radians lat)) as Hlat. fold s c in Hlat.
  pose proof (sin_cos_sq (radians lon)) as Hlon. fold sl cl in Hlon.
  set (W := (1 - wgs84_e_squared * s * s)%R).
  assert (HW : (0 < W)%R) by (unfold W; nra).
  set (r := sqrt W).
  assert (Hr : (r * r = W)%R) by (apply sqrt_sqrt; lra).
  assert (Hr0 : (r <> 0)%R).
  { intro E. rewrite E in Hr. lra. }
  transitivity
    ((wgs84_a * wgs84_a) * ((c * c * (cl * cl + sl * sl)
                             + (1 - wgs84_e_squared) * (s * s)) / (r * r)))%R.
  - field. repeat split; first [exact Hr0 | lra].
  - rewrite Hr.
    replace (cl * cl + sl * sl)%R with 1%R by lra.
    replace (c * c * 1 + (1 - wgs84_e_squared) * (s * s))%R with W
      by (unfold W; nra).
    field. lra.
Qed.

(** Height is measured along the Up vector: the point at height [h] is
    the point at height 0 moved by [h] times
    [(cos lat cos lon, cos lat sin lon, sin lat)]. *)
Theorem wgs84_to_ecef_height (lon lat h : R) :
  let '(x, y, z) := wgs84_to_ecef lon lat h in
  let '(x0, y0, z0) := wgs84_to_ecef lon lat 0 in
  let up := Up (radians lon) (radians lat) in
  (x = x0 + h * nth 0 up 0 /\ y = y0 + h * nth 1 up 0
   /\ z = z0 + h * nth 2 up 0)%R.
Proof.
  unfold wgs84_to_ecef, Up. cbn [nth].
  repeat split; ring.
Qed.

(** The rotation block of [get_transform_matrix] is a rotation: the
    first three entries of rows 0, 1, 2 are unit vectors orthogonal to
    one another, so are the first three entries of columns 0, 1, 2, and
    the third row is the vector product of the first two. *)
Theorem get_transform_matrix_rotation (self : FBX2Tiles) :
  let m := get_transform_matrix self in
  let r := fun i => firstn 3 (row i m) in
  let c := fun j => firstn 3 (column j m) in
  (dot3 (r 0%nat) (r 0%nat) = 1 /\ dot3 (r 1%nat) (r 1%nat) = 1
   /\ dot3 (r 2%nat) (r 2%nat) = 1
   /\ dot3 (r 0%nat) (r 1%nat) = 0 /\ dot3 (r 0%nat) (r 2%nat) = 0
   /\ dot3 (r 1%nat) (r 2%nat) = 0)%R
  /\ (dot3 (c 0%nat) (c 0%nat) = 1 /\ dot3 (c 1%nat) (c 1%nat) = 1
      /\ dot3 (c 2%nat) (c 2%nat) = 1
      /\ dot3 (c 0%nat) (c 1%nat) = 0 /\ dot3 (c 0%nat) (c 2%nat) = 0
      /\ dot3 (c 1%nat) (c 2%nat) = 0)%R
  /\ cross3 (r 0%nat) (r 1%nat) = r 2%nat.
Proof.
  unfold get_transform_matrix, wgs84_to_ecef, row, column, dot3, cross3.
  cbn [nth firstn skipn Nat.add Nat.mul].
  set (s := sin (radians (latitude self))).
  set (c := cos (radians (latitude self))).
  set (sl := sin (radians (longitude self))).
  set (cl := cos (radians (longitude self))).
  assert (HQ : (s * s + c * c - 1 = 0)%R).
  { pose proof (sin_cos_sq (radians (latitude self))) as H.
    fold s c in H. lra. }
  assert (HL : (sl * sl + cl * cl - 1 = 0)%R).
  { pose proof (sin_cos_sq (radians (longitude self))) as H.
    fold sl cl in H. lra. }
  assert (K : forall l r p q : R,
            (l = r + p * (sl * sl + cl * cl - 1)
                 + q * (s * s + c * c - 1))%R -> l = r).
  { intros l r p q H. rewrite H, HL, HQ. ring. }
  split; [| split].
  - split; [apply (K _ _ 1 0)%R; ring |].
    split; [apply (K _ _ (s * s) 1)%R; ring |].
    split; [apply (K _ _ (c * c) 1)%R; ring |].
    split; [ring |].
    split; [ring |].
    apply (K _ _ (- (s * c)) 0)%R; ring.
  - split; [apply (K _ _ 1 (cl * cl))%R; ring |].
    split; [apply (K _ _ 1 (sl * sl))%R; ring |].
    split; [apply (K _ _ 0 1)%R; ring |].
    split; [apply (K _ _ 0 (sl * cl))%R; ring |].
    split; ring.
  - f_equal; [ring |]. f_equal; [ring |]. f_equal.
    apply (K _ _ s 0)%R; ring.
Qed.
